(** * EUDR auditor: a shallow embedding of [eudr-app.py]

    The dashboard script is embedded as Rocq functions, section by section of
    the source.  Conventions of the embedding:

    - Python floats (coordinates, spreadsheet cells) are exact rationals [Q];
      rounding is not modelled, so nothing below speaks of the value a sum or
      a quotient of doubles takes.  A spreadsheet cell is a number or missing
      (NaN / None, here [None]); text, date and boolean cells are outside the
      model.
    - Column names are byte strings; [PyStr.lower] and [PyStr.strip] act on
      the ASCII range, where they are Python's [str.lower] and [str.strip].
    - Python dicts are insertion-ordered association lists with unique keys
      ([dict_set] overwrites in place, as [d[k] = v] does).
    - Python exceptions are values of [exn]; code that can raise returns a
      [result].
    - One execution of the script is a computation in the monad [M]: it reads
      and writes [st.session_state], appends the elements it renders, and
      ends normally or with an uncaught exception.
    - The outside world (the parsed upload, the HTTP reply) is an explicit
      argument. *)

From Stdlib Require Import String Ascii List Bool Arith ZArith QArith Lia.
From Stdlib Require Import Decimal DecimalString.
Import ListNotations.

Set Warnings "-register-all".
Local Open Scope string_scope.
Local Open Scope list_scope.

(** ** Python strings *)

Module PyStr.

(** [str.lower] on the ASCII range. *)
Definition lower_ascii (c : ascii) : ascii :=
  let n := nat_of_ascii c in
  if (65 <=? n)%nat && (n <=? 90)%nat then ascii_of_nat (n + 32) else c.

Fixpoint lower (s : string) : string :=
  match s with
  | EmptyString => EmptyString
  | String c r => String (lower_ascii c) (lower r)
  end.

(** The ASCII characters [str.strip] removes: tab, newline, vertical tab,
    form feed, carriage return, the four separators 28-31 and space. *)
Definition is_space (c : ascii) : bool :=
  let n := nat_of_ascii c in
  ((9 <=? n)%nat && (n <=? 13)%nat) || ((28 <=? n)%nat && (n <=? 32)%nat).

Fixpoint lstrip (s : string) : string :=
  match s with
  | EmptyString => EmptyString
  | String c r => if is_space c then lstrip r else s
  end.

Fixpoint rstrip (s : string) : string :=
  match s with
  | EmptyString => EmptyString
  | String c r =>
      match rstrip r with
      | EmptyString => if is_space c then EmptyString else String c EmptyString
      | r' => String c r'
      end
  end.

Definition strip (s : string) : string := rstrip (lstrip s).

(** [sub in s]. *)
Fixpoint contains (sub s : string) : bool :=
  String.prefix sub s ||
  match s with
  | EmptyString => false
  | String _ r => contains sub r
  end.

(** Truth value of a string: non-empty. *)
Definition truthy (s : string) : bool :=
  match s with EmptyString => false | _ => true end.

(** [str(n)] for a non-negative integer. *)
Definition of_nat (n : nat) : string := NilEmpty.string_of_uint (Nat.to_uint n).

(** [sep.join(l)] on strings. *)
Definition join (sep : string) (l : list string) : string := String.concat sep l.

End PyStr.

(** ** Exceptions and results *)

Inductive exn : Type :=
| KeyError (key : string)
| TypeError
| IndexError
| ZeroDivisionError
| ReadTimeout                   (* requests.exceptions.Timeout *)
| ConnectionError               (* requests.exceptions.ConnectionError *)
| JSONDecodeError
| ExcelReadError (msg : string) (* whatever pd.read_excel raises *)
| RerunException.               (* raised by st.rerun() *)

Inductive result (A : Type) : Type :=
| Ok (a : A)
| Raise (e : exn).
Arguments Ok {A} a.
Arguments Raise {A} e.

Definition rbind {A B} (r : result A) (k : A -> result B) : result B :=
  match r with
  | Ok a => k a
  | Raise e => Raise e
  end.

Declare Scope result_scope.
Delimit Scope result_scope with result.
Notation "x <- r ;; k" := (rbind r (fun x => k))
  (at level 61, r at next level, right associativity) : result_scope.

(** A comprehension [[f(x) for x in l]]: the first element that raises
    abandons the whole list. *)
Fixpoint comprehension {A B} (f : A -> result B) (l : list A) : result (list B) :=
  match l with
  | [] => Ok []
  | x :: r =>
      (y <- f x ;; ys <- comprehension f r ;; Ok (y :: ys))%result
  end.

(** ** Python dicts *)

Definition pydict (V : Type) : Type := list (string * V).

Fixpoint dict_get {V} (k : string) (d : pydict V) : option V :=
  match d with
  | [] => None
  | (k', v) :: r => if String.eqb k k' then Some v else dict_get k r
  end.

(** [d[k] = v]: overwrite in place, or insert at the end. *)
Fixpoint dict_set {V} (d : pydict V) (k : string) (v : V) : pydict V :=
  match d with
  | [] => [(k, v)]
  | (k', v') :: r =>
      if String.eqb k k' then (k', v) :: r else (k', v') :: dict_set r k v
  end.

(** [d[k]] *)
Definition getitem {V} (d : pydict V) (k : string) : result V :=
  match dict_get k d with
  | Some v => Ok v
  | None => Raise (KeyError k)
  end.

(** [dict(zip(keys, values))] *)
Definition dict_of_zip {V} (keys : list string) (values : list V) : pydict V :=
  fold_left (fun d kv => dict_set d (fst kv) (snd kv)) (combine keys values) [].

(** ** Data frames (the part of pandas the script uses) *)

Module Pandas.

(** A frame is a header and a list of rows; labels may repeat. *)
Record frame (V : Type) : Type := mk_frame {
  columns : list string;
  rows : list (list V)
}.
Arguments mk_frame {V} columns rows.
Arguments columns {V} f.
Arguments rows {V} f.

(** A cell of an uploaded sheet: a number, or missing. *)
Definition cell : Type := option Q.
Definition dataframe : Type := frame cell.

(** [df.columns = new] *)
Definition set_columns {V} (df : frame V) (new : list string) : frame V :=
  mk_frame new (rows df).

(** Positions of the columns labelled [k]. *)
Fixpoint positions_from (i : nat) (k : string) (cols : list string) : list nat :=
  match cols with
  | [] => []
  | c :: r =>
      if String.eqb k c then i :: positions_from (S i) k r
      else positions_from (S i) k r
  end.

Definition positions (k : string) (cols : list string) : list nat :=
  positions_from 0 k cols.

(** Indexer of [df[[k1; k2; ...]]]: for each key in turn every column that
    carries it; a key that labels no column raises [KeyError]. *)
Fixpoint indexer (keys : list string) (cols : list string) : result (list nat) :=
  match keys with
  | [] => Ok []
  | k :: r =>
      match positions k cols with
      | [] => Raise (KeyError k)
      | ps => (rest <- indexer r cols ;; Ok (ps ++ rest))%result
      end
  end.

Definition take {V} (missing : V) (df : frame V) (ix : list nat) : frame V :=
  mk_frame (map (fun i => nth i (columns df) "") ix)
           (map (fun row => map (fun i => nth i row missing) ix) (rows df)).

(** [df[keys]] *)
Definition select (df : dataframe) (keys : list string) : result dataframe :=
  (ix <- indexer keys (columns df) ;; Ok (take None df ix))%result.

(** A row survives [dropna] when none of its cells is missing. *)
Fixpoint all_present {V} (row : list (option V)) : option (list V) :=
  match row with
  | [] => Some []
  | None :: _ => None
  | Some v :: r =>
      match all_present r with
      | Some vs => Some (v :: vs)
      | None => None
      end
  end.

Fixpoint dropna_rows {V} (rs : list (list (option V))) : list (list V) :=
  match rs with
  | [] => []
  | r :: rest =>
      match all_present r with
      | Some vs => vs :: dropna_rows rest
      | None => dropna_rows rest
      end
  end.

(** [df.dropna()]: the surviving rows have no missing cell. *)
Definition dropna {V} (df : frame (option V)) : frame V :=
  mk_frame (columns df) (dropna_rows (rows df)).

(** [df.head(n)] *)
Definition head {V} (n : nat) (df : frame V) : frame V :=
  mk_frame (columns df) (firstn n (rows df)).

(** [df.rename(columns=m)] *)
Definition rename {V} (m : pydict string) (df : frame V) : frame V :=
  mk_frame (map (fun c => match dict_get c m with Some c' => c' | None => c end)
                (columns df))
           (rows df).

(** [df.to_dict('records')]: a repeated label keeps its last value. *)
Definition to_dict_records {V} (df : frame V) : list (pydict V) :=
  map (dict_of_zip (columns df)) (rows df).

End Pandas.

(** ** Session state, widgets and rendered elements *)

(** An entry of the point lists: the dict [{'lat': ..., 'lon': ...}]. *)
Definition point : Type := pydict Q.

(** [st.session_state] *)
Record session_state : Type := mk_state {
  manual_points : list point;
  excel_points : list point
}.

(** Lines 13-16: both lists start empty. *)
Definition initial_state : session_state := mk_state [] [].

(** What [pd.read_excel] makes of an uploaded file. *)
Inductive excel_file : Type :=
| Unreadable (msg : string)          (* read_excel raises; [msg] is str(e) *)
| Workbook (df : Pandas.dataframe).

Definition read_excel (f : excel_file) : result Pandas.dataframe :=
  match f with
  | Unreadable msg => Raise (ExcelReadError msg)
  | Workbook df => Ok df
  end.

(** The values the widgets return in one execution of the script. *)
Record widgets : Type := mk_widgets {
  uploaded_file : option excel_file;
  m_lat : Q;
  m_lon : Q;
  add_clicked : bool;
  operator : string;
  commodity : string;
  reset_clicked : bool
}.

(** One row of the compliance table. *)
Record report_row : Type := mk_row {
  pillar : string;
  item : string;
  reading : string;
  finding : string;
  legal : string
}.

(** A JSON value, as [json.loads] returns it and [json.dumps] takes it.  An
    object holds the members of the parsed dict, keys unique. *)
Inductive json : Type :=
| JNull
| JBool (b : bool)
| JNum (q : Q)
| JStr (s : string)
| JArr (items : list json)
| JObj (members : list (string * json)).

(** The pydeck deck of lines 77-97. *)
Record deck : Type := mk_deck {
  polygon : list (list Q);
  fill_color : list Z;
  line_color : list Z;
  view_latitude : Q;
  view_longitude : Q;
  zoom : Z;
  map_style : string;
  tooltip : string
}.

(** What the script puts on the page. *)
Inductive element : Type :=
| st_title (s : string)
| st_header (s : string)
| st_subheader (s : string)
| st_divider
| st_success (s : string)
| st_error (s : string)
| st_info (s : string)
| st_pydeck_chart (d : deck)
| st_table (t : list report_row)
| st_download_button (label : string) (data : json) (file_name : string).

(** ** The script monad *)

Record outcome (A : Type) : Type := mk_outcome {
  shown : list element;
  final : session_state;
  value : result A
}.
Arguments mk_outcome {A} shown final value.
Arguments shown {A} o.
Arguments final {A} o.
Arguments value {A} o.

Definition M (A : Type) : Type := session_state -> outcome A.

Definition ret {A} (a : A) : M A := fun s => mk_outcome [] s (Ok a).

Definition bind {A B} (m : M A) (k : A -> M B) : M B :=
  fun s =>
    let o := m s in
    match value o with
    | Ok a =>
        let o' := k a (final o) in
        mk_outcome (shown o ++ shown o') (final o') (value o')
    | Raise e => mk_outcome (shown o) (final o) (Raise e)
    end.

Definition emit (e : element) : M unit := fun s => mk_outcome [e] s (Ok tt).
Definition get_state : M session_state := fun s => mk_outcome [] s (Ok s).
Definition put_state (s' : session_state) : M unit := fun _ => mk_outcome [] s' (Ok tt).
Definition lift {A} (r : result A) : M A := fun s => mk_outcome [] s r.
Definition when (b : bool) (m : M unit) : M unit := if b then m else ret tt.

(** [try: body  except Exception as e: handler(e)]; [st.rerun]'s exception
    is not an [Exception] and passes through. *)
Definition try_except (body : M unit) (handler : exn -> M unit) : M unit :=
  fun s =>
    let o := body s in
    match value o with
    | Ok _ => o
    | Raise RerunException => o
    | Raise e =>
        let o' := handler e (final o) in
        mk_outcome (shown o ++ shown o') (final o') (value o')
    end.

Declare Scope script_scope.
Delimit Scope script_scope with script.
Notation "x <- m ;; k" := (bind m (fun x => k))
  (at level 61, m at next level, right associativity) : script_scope.
Notation "m ;; k" := (bind m (fun _ => k))
  (at level 61, right associativity) : script_scope.

(** ** Section 2 of the script: the sidebar *)

(** Line 25: [[str(c).lower().strip() for c in df_upload.columns]]. *)
Definition normalize_columns (cols : list string) : list string :=
  map (fun c => PyStr.strip (PyStr.lower c)) cols.

(** Lines 26-27: [next((c for c in cols if sub in c), None)]. *)
Definition first_containing (sub : string) (cols : list string) : option string :=
  find (PyStr.contains sub) cols.

(** Lines 29-30, for the columns found: the records that are stored. *)
Definition extract_records (df_upload : Pandas.dataframe) (lat_col lon_col : string)
  : result (list point) :=
  (selected <- Pandas.select df_upload [lat_col; lon_col] ;;
   let clean_df := Pandas.head 100 (Pandas.dropna selected) in
   let renaming := dict_set (dict_set [] lat_col "lat") lon_col "lon" in
   Ok (Pandas.to_dict_records (Pandas.rename renaming clean_df)))%result.

(** Lines 24-30, up to the value that line 30 stores: [Ok None] when the
    [if] of line 28 is not taken.  In [if lat_col and lon_col], [None] and
    the empty string are false. *)
Definition parse_upload (f : excel_file) : result (option (list point)) :=
  (df0 <- read_excel f ;;
   let df_upload := Pandas.set_columns df0 (normalize_columns (Pandas.columns df0)) in
   let lat_col := first_containing "lat" (Pandas.columns df_upload) in
   let lon_col := first_containing "lon" (Pandas.columns df_upload) in
   match lat_col, lon_col with
   | Some la, Some lo =>
       if PyStr.truthy la && PyStr.truthy lo then
         records <- extract_records df_upload la lo ;;
         Ok (Some records)
       else Ok None
   | _, _ => Ok None
   end)%result.

(** Lines 24-31, the body of the [try]: the assignment to the session state
    comes after everything that can raise, and the message after it. *)
Definition ingest (f : excel_file) : M unit :=
  (parsed <- lift (parse_upload f) ;;
   match parsed with
   | Some records =>
       s <- get_state ;;
       put_state (mk_state (manual_points s) records) ;;
       emit (st_success ("Loaded " ++ PyStr.of_nat (length records) ++ " points."))
   | None => ret tt
   end)%script.

(** [str(e)] for the exceptions the upload block can see. *)
Definition exn_message (e : exn) : string :=
  match e with
  | ExcelReadError msg => msg
  | KeyError k => "'" ++ k ++ "'"
  | _ => ""
  end.

(** Lines 22-32. *)
Definition upload_block (w : widgets) : M unit :=
  match uploaded_file w with
  | Some f =>
      try_except (ingest f)
                 (fun e => emit (st_error ("Excel Error: " ++ exn_message e)))
  | None => ret tt
  end.

(** Lines 37-38. *)
Definition add_manual_point (w : widgets) : M unit :=
  when (add_clicked w)
    (s <- get_state ;;
     put_state (mk_state (manual_points s ++ [[("lat", m_lat w); ("lon", m_lon w)]])
                         (excel_points s)))%script.

(** Lines 44-47. *)
Definition reset_all (w : widgets) : M unit :=
  when (reset_clicked w)
    (put_state (mk_state [] []) ;;
     lift (Raise RerunException))%script.

(** Lines 19-47. *)
Definition sidebar (w : widgets) : M unit :=
  (emit (st_header "📂 Input Sources") ;;
   upload_block w ;;
   emit st_divider ;;
   add_manual_point w ;;
   emit st_divider ;;
   reset_all w)%script.

(** ** Section 3 of the script: the audit engine *)

(** Line 50. *)
Definition all_points_of (s : session_state) : list point :=
  excel_points s ++ manual_points s.

(** [sum(p[k] for p in points)], accumulator first: Python adds the items to
    0 from left to right, and stops at the first item that raises. *)
Fixpoint sum_items (k : string) (points : list point) (acc : Q) : result Q :=
  match points with
  | [] => Ok acc
  | p :: r => (v <- getitem p k ;; sum_items k r (acc + v)%Q)%result
  end.

(** [a / n] for a count [n]. *)
Definition truediv (a : Q) (n : nat) : result Q :=
  match n with
  | O => Raise ZeroDivisionError
  | S _ => Ok (a / inject_Z (Z.of_nat n))%Q
  end.

(** What [requests.get(url, timeout=5)] comes back with: it raises, or there
    is a response with a status code and a body; the body is [None] when it
    is not JSON text. *)
Inductive http_reply : Type :=
| RequestFails (e : exn)
| Response (status_code : Z) (body : option json).

(** [requests.get(...).json()]: the status code plays no part. *)
Definition response_json (r : http_reply) : result json :=
  match r with
  | RequestFails e => Raise e
  | Response _ (Some v) => Ok v
  | Response _ None => Raise JSONDecodeError
  end.

(** [v[k]] for a string key [k]. *)
Definition subscript (v : json) (k : string) : result json :=
  match v with
  | JObj members => getitem members k
  | _ => Raise TypeError
  end.

Fixpoint chars (s : string) : list json :=
  match s with
  | EmptyString => []
  | String c r => JStr (String c EmptyString) :: chars r
  end.

(** [for r in v]: a list gives its items, a dict its keys, a string its
    characters; nothing else can be iterated. *)
Definition iterate (v : json) : result (list json) :=
  match v with
  | JArr items => Ok items
  | JObj members => Ok (map (fun m => JStr (fst m)) members)
  | JStr s => Ok (chars s)
  | _ => Raise TypeError
  end.

(** [r['properties']['Name']] *)
Definition name_of (r : json) : result json :=
  (props <- subscript r "properties" ;; subscript props "Name")%result.

(** Line 59 *)
Definition extract_names (res : json) : result (list json) :=
  (items <- iterate res ;; comprehension name_of items)%result.

(** Lines 56-60: the bare [except] swallows whatever is raised and leaves
    the initial empty list. *)
Definition territory_lookup (reply : http_reply) : list json :=
  match (res <- response_json reply ;; extract_names res)%result with
  | Ok names => names
  | Raise _ => []
  end.

(** Lines 52-62.  [net] answers the GET for a position. *)
Definition run_compliance_audit (net : Q -> Q -> http_reply) (points : list point)
  : result (Q * Q * list json) :=
  (lat_sum <- sum_items "lat" points 0 ;;
   lat_c <- truediv lat_sum (length points) ;;
   lon_sum <- sum_items "lon" points 0 ;;
   lon_c <- truediv lon_sum (length points) ;;
   let indigenous_names := territory_lookup (net lat_c lon_c) in
   Ok (lat_c, lon_c, indigenous_names))%result.

(** ** Section 4 of the script: the main display *)

(** Truth value of a list: non-empty. *)
Definition list_truthy {A} (l : list A) : bool :=
  match l with [] => false | _ => true end.

(** Line 70 *)
Definition poly_color (tribes : list json) : list Z :=
  if list_truthy tribes then [255; 75; 75; 150]%Z else [34; 139; 34; 150]%Z.

(** Line 71 *)
Definition risk_label (tribes : list json) : string :=
  if list_truthy tribes then "High Risk" else "Negligible Risk".

(** Line 114 *)
Definition social_finding (tribes : list json) : string :=
  if list_truthy tribes then "Risk Flagged" else "Negligible Risk".

(** [', '.join(tribes)]: every item must be a [str]. *)
Definition join_names (tribes : list json) : result string :=
  (names <- comprehension (fun v => match v with
                                    | JStr n => Ok n
                                    | _ => Raise TypeError
                                    end) tribes ;;
   Ok (PyStr.join ", " names))%result.

(** Line 113 *)
Definition social_reading (tribes : list json) : result string :=
  (index <- (if list_truthy tribes then join_names tribes else Ok "Clear") ;;
   Ok ("Indigenous Index: " ++ index)%string)%result.

(** [[p['lon'], p['lat']]] *)
Definition lon_lat (p : point) : result (list Q) :=
  (lon <- getitem p "lon" ;; lat <- getitem p "lat" ;; Ok [lon; lat])%result.

(** Line 77 *)
Definition poly_ring (all_points : list point) : result (list (list Q)) :=
  comprehension lon_lat all_points.

(** Lines 79-97 *)
Definition make_deck (ring : list (list Q)) (c_lat c_lon : Q) (tribes : list json)
    (operator : string) : deck :=
  {| polygon := ring;
     fill_color := poly_color tribes;
     line_color := [0; 0; 0; 200]%Z;
     view_latitude := c_lat;
     view_longitude := c_lon;
     zoom := 14;
     map_style := "mapbox://styles/mapbox/satellite-v9";
     tooltip := "Risk Level: " ++ risk_label tribes
                ++ String (ascii_of_nat 10) ("Operator: " ++ operator) |}.

(** Lines 102-131 *)
Definition report_data (all_points : list point) (tribes : list json)
  : result (list report_row) :=
  (social <- social_reading tribes ;;
   Ok [ {| pillar := "Environmental Baseline";
           item := "Forest Cover Status";
           reading := "Satellite (Sentinel-2) Overlay";
           finding := "Zero forest-to-agriculture conversion detected.";
           legal := "Satisfies Article 3(a): Ensures the plot is 'deforestation-free' relative to the 2020 cutoff." |};
        {| pillar := "Social Legality";
           item := "Land Use Rights";
           reading := social;
           finding := social_finding tribes;
           legal := "Satisfies Article 3(b): Verifies production complies with local legislation and indigenous rights." |};
        {| pillar := "Traceability";
           item := "Geolocation Mandate";
           reading := PyStr.of_nat (length all_points) ++ " Survey Vertices";
           finding := "WGS84 Compliant";
           legal := "Satisfies Article 9: Provides specific geolocation coordinates required for EU market entry." |};
        {| pillar := "Data Integrity";
           item := "Geometry Topology";
           reading := "Closed Polygon Loop";
           finding := "Valid for TRACES";
           legal := "Ensures the data structure is interoperable with EU Trade Control and Expert Systems (TRACES)." |} ])%result.

Definition json_pair (c : list Q) : json := JArr (map JNum c).

(** [all_points[0]] *)
Definition first_point (all_points : list point) : result point :=
  match all_points with
  | [] => Raise IndexError
  | p :: _ => Ok p
  end.

(** The ring of line 137: the pairs of all points, then the first again. *)
Definition export_ring (all_points : list point) : result (list json) :=
  (ring <- comprehension lon_lat all_points ;;
   p0 <- first_point all_points ;;
   lon0 <- getitem p0 "lon" ;;
   lat0 <- getitem p0 "lat" ;;
   Ok (map json_pair ring ++ [json_pair [lon0; lat0]]))%result.

(** Line 137 *)
Definition gj (all_points : list point) (tribes : list json) : result json :=
  (ring <- export_ring all_points ;;
   Ok (JObj
     [("type", JStr "FeatureCollection");
      ("features", JArr
        [JObj
          [("type", JStr "Feature");
           ("geometry", JObj [("type", JStr "Polygon");
                              ("coordinates", JArr [JArr ring])]);
           ("properties", JObj [("risk", JStr (risk_label tribes));
                                ("tribes", JArr tribes)])]])]))%result.

(** Lines 65-141.  The download carries the value handed to [json.dumps]. *)
Definition main_display (net : Q -> Q -> http_reply) (w : widgets) : M unit :=
  (s <- get_state ;;
   let all_points := all_points_of s in
   if (3 <=? length all_points)%nat then
     audit <- lift (run_compliance_audit net all_points) ;;
     let '(c_lat, c_lon, tribes) := audit in
     emit (st_subheader "🗺️ Spatial Risk Visualization") ;;
     ring <- lift (poly_ring all_points) ;;
     emit (st_pydeck_chart (make_deck ring c_lat c_lon tribes (operator w))) ;;
     emit (st_header "📄 EUDR Detailed Compliance Summary") ;;
     report <- lift (report_data all_points tribes) ;;
     emit (st_table report) ;;
     emit st_divider ;;
     export <- lift (gj all_points tribes) ;;
     emit (st_download_button "💾 Download Verified GeoJSON & Report" export
                              "EUDR_Final_Evidence.geojson")
   else
     emit (st_info "👋 **System Ready.** Upload an Excel file or add 3 manual points to generate the verification map."))%script.

(** ** The whole script *)

(** One execution, top to bottom. *)
Definition script_once (net : Q -> Q -> http_reply) (w : widgets) : M unit :=
  (emit (st_title "⚖️ EUDR Automated Compliance Dashboard") ;;
   sidebar w ;;
   main_display net w)%script.

(** After [st.rerun()] the script starts again on the state it left; the
    widgets keep their values, but the buttons are no longer pressed. *)
Definition released (w : widgets) : widgets :=
  {| uploaded_file := uploaded_file w;
     m_lat := m_lat w;
     m_lon := m_lon w;
     add_clicked := false;
     operator := operator w;
     commodity := commodity w;
     reset_clicked := false |}.

Definition script (net : Q -> Q -> http_reply) (w : widgets) : M unit :=
  fun s =>
    let o := script_once net w s in
    match value o with
    | Raise RerunException => script_once net (released w) (final o)
    | _ => o
    end.

(** ** Vocabulary of the specification *)

(** A Coordinate of the data model, and the dict that stores it (line 38
    for a manual point, line 30 for an imported row). *)
Record coordinate : Type := mk_coordinate {
  latitude : Q;
  longitude : Q
}.

Definition to_point (c : coordinate) : point :=
  [("lat", latitude c); ("lon", longitude c)].

(** The session state that holds the given coordinates. *)
Definition state_of (imported manual : list coordinate) : session_state :=
  {| manual_points := map to_point manual;
     excel_points := map to_point imported |}.

(** Arithmetic mean, as the specification words it: the sum of the values
    divided by how many there are. *)
Definition arithmetic_mean (l : list Q) : Q :=
  (fold_right Qplus 0 l / inject_Z (Z.of_nat (length l)))%Q.

(** Colours are [r; g; b; a] with components in 0..255. *)
Definition red_family (c : list Z) : Prop :=
  match c with
  | [r; g; b; _] => (g < r /\ b < r)%Z
  | _ => False
  end.

Definition green_family (c : list Z) : Prop :=
  match c with
  | [r; g; b; _] => (r < g /\ b < g)%Z
  | _ => False
  end.

Definition translucent (c : list Z) : Prop :=
  match c with
  | [_; _; _; a] => (0 < a < 255)%Z
  | _ => False
  end.

(** The [lon, lat] pair of a coordinate, as the export writes it. *)
Definition export_pair (c : coordinate) : json :=
  JArr [JNum (longitude c); JNum (latitude c)].

(** An item of the answer that has no [properties] member, or whose
    [properties] has no [Name] member (or is not an object at all). *)
Definition lacks_name (r : json) : bool :=
  match r with
  | JObj members =>
      match dict_get "properties" members with
      | Some (JObj props) =>
          match dict_get "Name" props with
          | Some _ => false
          | None => true
          end
      | _ => true
      end
  | _ => true
  end.

(** Every territory name is JSON text, as the lookup interface types it. *)
Definition names_are_text (tribes : list json) : Prop :=
  Forall (fun v => exists n, v = JStr n) tribes.

(** ** Sample inputs *)

Definition sample_imported : list coordinate :=
  [mk_coordinate 1 2].

Definition sample_manual : list coordinate :=
  [mk_coordinate 3 5; mk_coordinate 2 (1 # 2)].

(** A network on which every request times out. *)
Definition net_timeout : Q -> Q -> http_reply :=
  fun _ _ => RequestFails ReadTimeout.

(** Two manual points and nothing imported. *)
Definition two_points : session_state :=
  state_of [] [mk_coordinate 3 5; mk_coordinate 2 (1 # 2)].

Definition sample_widgets : widgets :=
  {| uploaded_file := None;
     m_lat := 0;
     m_lon := 0;
     add_clicked := false;
     operator := "Global Trade Corp";
     commodity := "Wood";
     reset_clicked := false |}.

(** A sheet with no coordinate columns. *)
Definition sheet_without_columns : Pandas.dataframe :=
  Pandas.mk_frame ["Plot"; "Area"] [[Some 1; Some 20]; [Some 2; Some 35]]%Q.

(** A sheet whose rows all miss a coordinate. *)
Definition sheet_without_rows : Pandas.dataframe :=
  Pandas.mk_frame ["Lat"; "Long"] [[None; Some 20]; [Some 2; None]]%Q.

(** The sheet of the ingestion scenario: columns Lat and Long, five valid
    rows and one row without a latitude. *)
Definition sheet_scenario : Pandas.dataframe :=
  Pandas.mk_frame ["Lat"; "Long"]
    [[Some 1; Some 10]; [Some 2; Some 20]; [None; Some 30];
     [Some 4; Some 40]; [Some 5; Some 50]; [Some 6; Some 60]]%Q.

(** A sheet whose single column name contains both "lat" and "lon". *)
Definition sheet_shared_column : Pandas.dataframe :=
  Pandas.mk_frame ["LatLon"] [[Some 1]; [Some 2]; [Some 3]]%Q.

Definition uploading (f : excel_file) : widgets :=
  {| uploaded_file := Some f;
     m_lat := 0;
     m_lon := 0;
     add_clicked := false;
     operator := "Global Trade Corp";
     commodity := "Wood";
     reset_clicked := false |}.

(** A state with one imported and two manual points. *)
Definition busy_state : session_state :=
  state_of sample_imported sample_manual.

(** A well-formed item of the lookup's answer, and one with no [Name]. *)
Definition territory (name : string) : json :=
  JObj [("properties", JObj [("Name", JStr name)])].

Definition nameless : json :=
  JObj [("properties", JObj [("Slug", JStr "unnamed")])].

(** A row that misses a cell in one of the selected positions. *)
Definition row_incomplete (ix : list nat) (row : list Pandas.cell) : bool :=
  existsb (fun i => match nth i row None with
                    | None => true
                    | Some _ => false
                    end) ix.

(** The coordinate a row holds in columns [i] and [j], when neither cell is
    missing, and the rows of a sheet that hold one. *)
Definition coordinate_of_row (i j : nat) (row : list Pandas.cell) : option coordinate :=
  match nth i row None, nth j row None with
  | Some a, Some b => Some (mk_coordinate a b)
  | _, _ => None
  end.

Fixpoint complete_rows (i j : nat) (rs : list (list Pandas.cell)) : list coordinate :=
  match rs with
  | [] => []
  | r :: rest =>
      match coordinate_of_row i j r with
      | Some c => c :: complete_rows i j rest
      | None => complete_rows i j rest
      end
  end.

(** The header of an uploaded sheet after line 25. *)
Definition header_of (df : Pandas.dataframe) : list string :=
  normalize_columns (Pandas.columns df).

(** The text of a JSON string. *)
Definition text_of (v : json) : string :=
  match v with
  | JStr n => n
  | _ => ""
  end.

(** The placeholder of line 141. *)
Definition placeholder : element :=
  st_info "👋 **System Ready.** Upload an Excel file or add 3 manual points to generate the verification map.".

(** A computation raises only exceptions that satisfy [P]. *)
Definition raises_only {A} (P : exn -> Prop) (m : M A) : Prop :=
  forall s e, value (m s) = Raise e -> P e.

(** ** Vocabulary of the further properties *)

(** The dict line 38 appends. *)
Definition manual_entry (w : widgets) : point :=
  [("lat", m_lat w); ("lon", m_lon w)].

(** The state after lines 37-38. *)
Definition after_add (w : widgets) (s : session_state) : session_state :=
  if add_clicked w
  then {| manual_points := manual_points s ++ [manual_entry w];
          excel_points := excel_points s |}
  else s.

(** A name made of ASCII characters only.  On such names [PyStr.lower] and
    [PyStr.strip] are Python's [str.lower] and [str.strip]. *)
Fixpoint is_ascii (s : string) : bool :=
  match s with
  | EmptyString => true
  | String c r => (nat_of_ascii c <? 128)%nat && is_ascii r
  end.

(** The item [r] of an answer carries the name [n]: it is an object whose
    [properties] member is an object with a [Name] member [n]; it may have
    any other members. *)
Definition carries_name (r n : json) : Prop :=
  exists members props,
    r = JObj members
    /\ dict_get "properties" members = Some (JObj props)
    /\ dict_get "Name" props = Some n.

(** A JSON value that is a string. *)
Definition is_text (v : json) : bool :=
  match v with
  | JStr _ => true
  | _ => false
  end.

(** The exceptions that ill-formed data can raise in the main display. *)
Definition data_error (e : exn) : Prop :=
  match e with
  | KeyError _ | TypeError | IndexError => True
  | _ => False
  end.

(** A computation that leaves the session state as it found it. *)
Definition keeps_state {A} (m : M A) : Prop :=
  forall s, final (m s) = s.

(** The widgets with another commodity selected. *)
Definition with_commodity (w : widgets) (c : string) : widgets :=
  {| uploaded_file := uploaded_file w;
     m_lat := m_lat w;
     m_lon := m_lon w;
     add_clicked := add_clicked w;
     operator := operator w;
     commodity := c;
     reset_clicked := reset_clicked w |}.

(** ** Further sample inputs *)

(** The add button pressed with 7 and 8 in the number inputs. *)
Definition adding : widgets :=
  {| uploaded_file := None;
     m_lat := 7;
     m_lon := 8;
     add_clicked := true;
     operator := "Global Trade Corp";
     commodity := "Wood";
     reset_clicked := false |}.

(** The reset button pressed, with and without a file in the uploader. *)
Definition resetting (file : option excel_file) : widgets :=
  {| uploaded_file := file;
     m_lat := 0;
     m_lon := 0;
     add_clicked := false;
     operator := "Global Trade Corp";
     commodity := "Wood";
     reset_clicked := true |}.

(** The five complete rows of [sheet_scenario]. *)
Definition scenario_points : list coordinate :=
  [mk_coordinate 1 10; mk_coordinate 2 20; mk_coordinate 4 40;
   mk_coordinate 5 50; mk_coordinate 6 60].

(** An item as the service returns it, with members besides the name. *)
Definition territory_feature (name slug : string) : json :=
  JObj [("type", JStr "Feature");
        ("properties", JObj [("Name", JStr name); ("Slug", JStr slug)]);
        ("geometry", JNull)].

(** A network that answers one item whose name is [null]. *)
Definition net_null_name : Q -> Q -> http_reply :=
  fun _ _ => Response 200 (Some (JArr [JObj [("properties", JObj [("Name", JNull)])]])).

(** * Properties *)

(** ** Risk classifier *)

(** C1: the classifier is an exact two-way mapping on the territory-name
    list.  The empty list gives the label "Negligible Risk", the green,
    translucent fill [34; 139; 34; 150] and the finding "Negligible Risk";
    every non-empty list gives "High Risk", the red, translucent fill
    [255; 75; 75; 150] and the finding "Risk Flagged". *)
Theorem classifier_two_way (tribes : list json) :
  match tribes with
  | [] =>
      risk_label tribes = "Negligible Risk"
      /\ poly_color tribes = [34; 139; 34; 150]%Z
      /\ green_family (poly_color tribes)
      /\ translucent (poly_color tribes)
      /\ social_finding tribes = "Negligible Risk"
  | _ :: _ =>
      risk_label tribes = "High Risk"
      /\ poly_color tribes = [255; 75; 75; 150]%Z
      /\ red_family (poly_color tribes)
      /\ translucent (poly_color tribes)
      /\ social_finding tribes = "Risk Flagged"
  end.
Proof.
  destruct tribes as [|t rest]; cbn; repeat split; lia.
Qed.

(** ** Centroid *)

Lemma getitem_lat (c : coordinate) : getitem (to_point c) "lat" = Ok (latitude c).
Proof. reflexivity. Qed.

Lemma getitem_lon (c : coordinate) : getitem (to_point c) "lon" = Ok (longitude c).
Proof. reflexivity. Qed.

Lemma sum_items_lat (cs : list coordinate) (acc : Q) :
  sum_items "lat" (map to_point cs) acc = Ok (fold_left Qplus (map latitude cs) acc).
Proof.
  revert acc; induction cs as [|c cs IH]; intros acc; [reflexivity|].
  cbn [map sum_items fold_left]. rewrite getitem_lat. cbn [rbind]. apply IH.
Qed.

Lemma sum_items_lon (cs : list coordinate) (acc : Q) :
  sum_items "lon" (map to_point cs) acc = Ok (fold_left Qplus (map longitude cs) acc).
Proof.
  revert acc; induction cs as [|c cs IH]; intros acc; [reflexivity|].
  cbn [map sum_items fold_left]. rewrite getitem_lon. cbn [rbind]. apply IH.
Qed.

(** Adding from the left onto an accumulator is the sum of the list. *)
Lemma fold_left_Qplus (l : list Q) (acc : Q) :
  (fold_left Qplus l acc == acc + fold_right Qplus 0 l)%Q.
Proof.
  revert acc; induction l as [|x l IH]; intros acc; cbn [fold_left fold_right].
  - ring.
  - rewrite IH. ring.
Qed.

Lemma truediv_pos (a : Q) (n : nat) :
  (0 < n)%nat -> truediv a n = Ok (a / inject_Z (Z.of_nat n))%Q.
Proof. destruct n; [lia|reflexivity]. Qed.

Lemma all_points_of_state (imported manual : list coordinate) :
  all_points_of (state_of imported manual) = map to_point (imported ++ manual).
Proof. unfold all_points_of, state_of; cbn. now rewrite map_app. Qed.

(** The audit of a list of coordinates never raises, whatever the network
    answers. *)
Lemma run_compliance_audit_coordinates
    (net : Q -> Q -> http_reply) (cs : list coordinate) :
  (0 < length cs)%nat ->
  let n := inject_Z (Z.of_nat (length cs)) in
  let lat_c := (fold_left Qplus (map latitude cs) 0 / n)%Q in
  let lon_c := (fold_left Qplus (map longitude cs) 0 / n)%Q in
  run_compliance_audit net (map to_point cs)
  = Ok (lat_c, lon_c, territory_lookup (net lat_c lon_c)).
Proof.
  intros Hn. unfold run_compliance_audit.
  rewrite sum_items_lat, sum_items_lon, length_map. cbn [rbind].
  rewrite !truediv_pos by exact Hn. reflexivity.
Qed.

(** The formula of lines 53-54, read in exact arithmetic, is the arithmetic
    mean over the imported points followed by the manual ones.  The script
    evaluates it in double precision, where each addition and the division
    round: this lemma says nothing about the rounded value. *)
Theorem centroid_is_mean
    (net : Q -> Q -> http_reply) (imported manual : list coordinate) :
  (3 <= length (imported ++ manual))%nat ->
  exists lat_c lon_c tribes,
    run_compliance_audit net (all_points_of (state_of imported manual))
    = Ok (lat_c, lon_c, tribes)
    /\ (lat_c == arithmetic_mean (map latitude (imported ++ manual)))%Q
    /\ (lon_c == arithmetic_mean (map longitude (imported ++ manual)))%Q.
Proof.
  intros Hn. rewrite all_points_of_state.
  rewrite run_compliance_audit_coordinates by lia.
  eexists _, _, _. split; [reflexivity|].
  unfold arithmetic_mean. rewrite !length_map.
  split; rewrite fold_left_Qplus; apply Qdiv_comp; try reflexivity; ring.
Qed.

Lemma centroid_is_mean_witness :
  (3 <= length (sample_imported ++ sample_manual))%nat
  /\ exists lat_c lon_c tribes,
       run_compliance_audit net_timeout
         (all_points_of (state_of sample_imported sample_manual))
       = Ok (lat_c, lon_c, tribes)
       /\ (lat_c == arithmetic_mean (map latitude (sample_imported ++ sample_manual)))%Q
       /\ (lon_c == arithmetic_mean (map longitude (sample_imported ++ sample_manual)))%Q.
Proof.
  split; [cbn; lia | apply centroid_is_mean; cbn; lia].
Defined.

(** ** Export *)

Lemma comprehension_map {A B} (f : A -> result B) (g : A -> B) (l : list A) :
  (forall x, In x l -> f x = Ok (g x)) ->
  comprehension f l = Ok (map g l).
Proof.
  induction l as [|x l IH]; intros H; [reflexivity|].
  cbn [comprehension map]. rewrite (H x) by (left; reflexivity). cbn [rbind].
  rewrite IH by (intros y Hy; apply H; right; exact Hy). reflexivity.
Qed.

Lemma lon_lat_to_point (c : coordinate) :
  lon_lat (to_point c) = Ok [longitude c; latitude c].
Proof. reflexivity. Qed.

Lemma poly_ring_coordinates (cs : list coordinate) :
  poly_ring (map to_point cs) = Ok (map (fun c => [longitude c; latitude c]) cs).
Proof.
  unfold poly_ring. induction cs as [|c cs IH]; [reflexivity|].
  cbn [map comprehension]. rewrite lon_lat_to_point, IH. reflexivity.
Qed.

Lemma export_ring_coordinates (c0 : coordinate) (rest : list coordinate) :
  export_ring (map to_point (c0 :: rest))
  = Ok (map export_pair (c0 :: rest) ++ [export_pair c0]).
Proof.
  unfold export_ring. fold (poly_ring (map to_point (c0 :: rest))).
  rewrite poly_ring_coordinates. cbn [rbind map first_point].
  rewrite getitem_lon, getitem_lat. cbn [rbind map].
  rewrite map_map. reflexivity.
Qed.

Lemma export_is_polygon (imported manual : list coordinate) (tribes : list json) :
  (3 <= length (imported ++ manual))%nat ->
  exists export, gj (all_points_of (state_of imported manual)) tribes = Ok export.
Proof.
  intros Hn. rewrite all_points_of_state.
  destruct (imported ++ manual) as [|c0 rest]; [cbn in Hn; lia|].
  unfold gj. rewrite export_ring_coordinates. cbn [rbind]. eauto.
Qed.

(** C3: for n >= 3 points the exported GeoJSON is a FeatureCollection with
    exactly one feature, a Polygon, whose single ring lists the
    [lon, lat] pairs of the points in order (imported, then manual) followed
    by the pair of the first point again: the ring has n + 1 pairs and its
    last pair equals its first.  The properties hold the risk label and the
    territory-name list. *)
Theorem export_is_closed_polygon
    (imported manual : list coordinate) (tribes : list json) :
  (3 <= length (imported ++ manual))%nat ->
  exists (first : coordinate) (ring : list json),
    hd_error (imported ++ manual) = Some first
    /\ ring = map export_pair (imported ++ manual) ++ [export_pair first]
    /\ gj (all_points_of (state_of imported manual)) tribes
       = Ok (JObj
           [("type", JStr "FeatureCollection");
            ("features", JArr
              [JObj
                [("type", JStr "Feature");
                 ("geometry", JObj [("type", JStr "Polygon");
                                    ("coordinates", JArr [JArr ring])]);
                 ("properties", JObj [("risk", JStr (risk_label tribes));
                                      ("tribes", JArr tribes)])]])])
    /\ length ring = (length (imported ++ manual) + 1)%nat
    /\ last ring JNull = hd JNull ring
    /\ hd JNull ring = export_pair first.
Proof.
  intros Hn. rewrite all_points_of_state.
  destruct (imported ++ manual) as [|c0 rest] eqn:E; [cbn in Hn; lia|].
  exists c0, (map export_pair (c0 :: rest) ++ [export_pair c0]).
  split; [reflexivity|]. split; [reflexivity|].
  split; [unfold gj; rewrite export_ring_coordinates; reflexivity|].
  split; [rewrite length_app, length_map; reflexivity|].
  split; [rewrite last_last; reflexivity | reflexivity].
Qed.

Lemma export_is_closed_polygon_witness :
  (3 <= length (sample_imported ++ sample_manual))%nat
  /\ exists (first : coordinate) (ring : list json),
       hd_error (sample_imported ++ sample_manual) = Some first
       /\ ring = map export_pair (sample_imported ++ sample_manual) ++ [export_pair first]
       /\ gj (all_points_of (state_of sample_imported sample_manual)) [JStr "Anishinabek"]
          = Ok (JObj
              [("type", JStr "FeatureCollection");
               ("features", JArr
                 [JObj
                   [("type", JStr "Feature");
                    ("geometry", JObj [("type", JStr "Polygon");
                                       ("coordinates", JArr [JArr ring])]);
                    ("properties", JObj [("risk", JStr (risk_label [JStr "Anishinabek"]));
                                         ("tribes", JArr [JStr "Anishinabek"])])]])])
       /\ length ring = (length (sample_imported ++ sample_manual) + 1)%nat
       /\ last ring JNull = hd JNull ring
       /\ hd JNull ring = export_pair first.
Proof.
  split; [cbn; lia | apply export_is_closed_polygon; cbn; lia].
Defined.

(** ** Territory lookup *)

Lemma comprehension_raises {A B} (f : A -> result B) (before after : list A) (x : A) (e : exn) :
  f x = Raise e ->
  exists e', comprehension f (before ++ x :: after) = Raise e'.
Proof.
  intros Hx. induction before as [|y before IH]; cbn [List.app comprehension].
  - rewrite Hx. cbn [rbind]. eauto.
  - destruct (f y) as [b|e0]; cbn [rbind]; [|eauto].
    destruct IH as (e' & ->). cbn [rbind]. eauto.
Qed.

(** An item with no name is one on which line 59 raises. *)
Lemma lacks_name_raises (r : json) :
  lacks_name r = true <-> exists e, name_of r = Raise e.
Proof.
  unfold lacks_name, name_of, subscript, getitem.
  destruct r as [| | | | |members]; cbn [rbind];
    try (split; [eauto | reflexivity]).
  destruct (dict_get "properties" members) as [props|]; cbn [rbind];
    [|split; [eauto | reflexivity]].
  destruct props as [| | | | |pm]; cbn [rbind];
    try (split; [eauto | reflexivity]).
  destruct (dict_get "Name" pm); cbn [rbind]; split; eauto; try discriminate.
  intros (e & He). discriminate He.
Qed.

Lemma lookup_drops_everything (status : Z) (before after : list json) (r : json) :
  lacks_name r = true ->
  territory_lookup (Response status (Some (JArr (before ++ r :: after)))) = [].
Proof.
  intros Hr. apply lacks_name_raises in Hr. destruct Hr as (e & He).
  unfold territory_lookup, extract_names. cbn [response_json rbind iterate].
  destruct (comprehension_raises name_of before after r e He) as (e' & ->).
  reflexivity.
Qed.

(** C10: the lookup is all-or-nothing.  When the answer is a JSON array and
    any one item of it has no [properties] or no [Name], the territory-name
    list is empty: the names of the items before it are not kept. *)
Theorem lookup_all_or_nothing (status : Z) (items : list json) :
  existsb lacks_name items = true ->
  territory_lookup (Response status (Some (JArr items))) = [].
Proof.
  intros H. apply existsb_exists in H. destruct H as (r & Hin & Hr).
  apply in_split in Hin. destruct Hin as (before & after & ->).
  apply lookup_drops_everything. exact Hr.
Qed.

Lemma lookup_all_or_nothing_witness :
  existsb lacks_name [territory "Anishinabek"; nameless; territory "Odawa"] = true
  /\ territory_lookup
       (Response 200 (Some (JArr [territory "Anishinabek"; nameless; territory "Odawa"])))
     = [].
Proof.
  split; [reflexivity | apply lookup_all_or_nothing; reflexivity].
Defined.

(** C4, as stated, fails: a response whose status is not 200 but whose body
    is a well-formed answer yields its names, and the risk is "High Risk". *)
Lemma non_200_reply_is_read :
  (500 <> 200)%Z
  /\ territory_lookup (Response 500 (Some (JArr [territory "Anishinabek"])))
     = [JStr "Anishinabek"]
  /\ risk_label (territory_lookup (Response 500 (Some (JArr [territory "Anishinabek"]))))
     = "High Risk".
Proof. repeat split. discriminate. Qed.

(** C4, amended: the lookup result is the empty list, and nothing is raised
    to the caller, whenever the request itself raises (timeout, connection
    error), the body is not JSON, or reading the names off the body raises -
    in particular when an item has no [properties] or no [Name].  The status
    code is never looked at: a response is read the same way under any
    status, so a non-200 response is empty exactly when its body is. *)
Theorem lookup_fails_open :
  (forall e, territory_lookup (RequestFails e) = [])
  /\ (forall status, territory_lookup (Response status None) = [])
  /\ (forall status body e,
        extract_names body = Raise e ->
        territory_lookup (Response status (Some body)) = [])
  /\ (forall status before r after,
        lacks_name r = true ->
        territory_lookup (Response status (Some (JArr (before ++ r :: after)))) = [])
  /\ (forall status status' body,
        territory_lookup (Response status body) = territory_lookup (Response status' body))
  /\ (forall net (cs : list coordinate),
        cs <> [] ->
        exists lat_c lon_c,
          run_compliance_audit net (map to_point cs)
          = Ok (lat_c, lon_c, territory_lookup (net lat_c lon_c))).
Proof.
  split; [reflexivity|].
  split; [reflexivity|].
  split.
  { intros status body e He. unfold territory_lookup.
    cbn [response_json rbind]. rewrite He. reflexivity. }
  split; [intros; now apply lookup_drops_everything|].
  split.
  { intros status status' [body|]; reflexivity. }
  intros net cs Hcs. eexists _, _.
  apply run_compliance_audit_coordinates.
  destruct cs; [contradiction | cbn; lia].
Qed.

Lemma lookup_fails_open_witness :
  (extract_names (JObj [("error", JStr "not found")]) = Raise TypeError
   /\ territory_lookup (Response 404 (Some (JObj [("error", JStr "not found")]))) = [])
  /\ (lacks_name nameless = true
      /\ territory_lookup
           (Response 200 (Some (JArr ([territory "Anishinabek"] ++ nameless :: []))))
         = [])
  /\ (sample_manual <> []
      /\ exists lat_c lon_c,
           run_compliance_audit net_timeout (map to_point sample_manual)
           = Ok (lat_c, lon_c, territory_lookup (net_timeout lat_c lon_c))).
Proof.
  destruct lookup_fails_open as (_ & _ & Hextract & Hitem & _ & Haudit).
  split; [split; [reflexivity | apply (Hextract 404%Z _ TypeError); reflexivity]|].
  split; [split; [reflexivity | apply Hitem; reflexivity]|].
  split; [discriminate | apply Haudit; discriminate].
Defined.

(** ** The script monad *)

Lemma value_bind {A B} (m : M A) (k : A -> M B) (s : session_state) :
  value (bind m k s)
  = match value (m s) with
    | Ok a => value (k a (final (m s)))
    | Raise e => Raise e
    end.
Proof. unfold bind. destruct (value (m s)); reflexivity. Qed.

Lemma bind_get_state {B} (k : session_state -> M B) (s : session_state) :
  bind get_state k s = k s s.
Proof. unfold bind, get_state; cbn. destruct (k s s); reflexivity. Qed.

Lemma bind_emit {B} (x : element) (k : unit -> M B) (s : session_state) :
  bind (emit x) k s
  = {| shown := x :: shown (k tt s); final := final (k tt s); value := value (k tt s) |}.
Proof. reflexivity. Qed.

Lemma bind_lift_ok {A B} (r : result A) (a : A) (k : A -> M B) (s : session_state) :
  r = Ok a -> bind (lift r) k s = k a s.
Proof. intros ->. unfold bind, lift; cbn. destruct (k a s); reflexivity. Qed.

Lemma bind_lift_raise {A B} (r : result A) (e : exn) (k : A -> M B) (s : session_state) :
  r = Raise e -> bind (lift r) k s = {| shown := []; final := s; value := Raise e |}.
Proof. intros ->. reflexivity. Qed.

Lemma raises_only_bind {A B} (P : exn -> Prop) (m : M A) (k : A -> M B) :
  raises_only P m -> (forall a, raises_only P (k a)) -> raises_only P (bind m k).
Proof.
  intros Hm Hk s e. rewrite value_bind.
  destruct (value (m s)) as [a|e0] eqn:E.
  - apply Hk.
  - intros [= <-]. exact (Hm s e0 E).
Qed.

Lemma raises_only_emit (P : exn -> Prop) (x : element) : raises_only P (emit x).
Proof. intros s e; cbn; discriminate. Qed.

Lemma raises_only_get_state (P : exn -> Prop) : raises_only P get_state.
Proof. intros s e; cbn; discriminate. Qed.

Lemma raises_only_lift {A} (P : exn -> Prop) (r : result A) :
  (forall e, r = Raise e -> P e) -> raises_only P (lift r).
Proof. intros H s e; cbn; apply H. Qed.

(** ** What can be raised after the guard *)

Lemma sum_items_raises (k : string) (points : list point) (acc : Q) (e : exn) :
  sum_items k points acc = Raise e -> e = KeyError k.
Proof.
  revert acc; induction points as [|p r IH]; intros acc; cbn [sum_items].
  - discriminate.
  - unfold getitem. destruct (dict_get k p); cbn [rbind].
    + apply IH.
    + now intros [= <-].
Qed.

Lemma comprehension_raises_inv {A B} (f : A -> result B) (l : list A) (e : exn) :
  comprehension f l = Raise e -> exists x, In x l /\ f x = Raise e.
Proof.
  induction l as [|x l IH]; cbn [comprehension]; [discriminate|].
  destruct (f x) as [y|e0] eqn:E; cbn [rbind].
  - destruct (comprehension f l) as [ys|e1]; cbn [rbind]; [discriminate|].
    intros [= <-]. destruct (IH eq_refl) as (x' & Hin & Hx'). exists x'; split; [now right | exact Hx'].
  - intros [= <-]. exists x; split; [now left | exact E].
Qed.

Lemma getitem_raises {V} (d : pydict V) (k : string) (e : exn) :
  getitem d k = Raise e -> e = KeyError k.
Proof. unfold getitem. destruct (dict_get k d); [discriminate | now intros [= <-]]. Qed.

Lemma lon_lat_raises (p : point) (e : exn) :
  lon_lat p = Raise e -> e <> ZeroDivisionError.
Proof.
  unfold lon_lat. destruct (getitem p "lon") eqn:E1; cbn [rbind].
  - destruct (getitem p "lat") eqn:E2; cbn [rbind]; [discriminate|].
    intros [= <-]. apply getitem_raises in E2. subst; discriminate.
  - intros [= <-]. apply getitem_raises in E1. subst; discriminate.
Qed.

Lemma poly_ring_raises (all_points : list point) (e : exn) :
  poly_ring all_points = Raise e -> e <> ZeroDivisionError.
Proof.
  intros H. apply comprehension_raises_inv in H. destruct H as (p & _ & Hp).
  exact (lon_lat_raises p e Hp).
Qed.

Lemma audit_raises (net : Q -> Q -> http_reply) (points : list point) (e : exn) :
  (0 < length points)%nat ->
  run_compliance_audit net points = Raise e -> e <> ZeroDivisionError.
Proof.
  intros Hn. unfold run_compliance_audit.
  destruct (sum_items "lat" points 0) eqn:E1; cbn [rbind].
  - rewrite truediv_pos by exact Hn. cbn [rbind].
    destruct (sum_items "lon" points 0) eqn:E2; cbn [rbind].
    + rewrite truediv_pos by exact Hn. cbn [rbind]. discriminate.
    + intros [= <-]. apply sum_items_raises in E2. subst; discriminate.
  - intros [= <-]. apply sum_items_raises in E1. subst; discriminate.
Qed.

Lemma report_data_raises (all_points : list point) (tribes : list json) (e : exn) :
  report_data all_points tribes = Raise e -> e = TypeError.
Proof.
  unfold report_data, social_reading, join_names.
  destruct (list_truthy tribes); cbn [rbind]; [|discriminate].
  destruct (comprehension _ tribes) eqn:E; cbn [rbind]; [discriminate|].
  intros [= <-]. apply comprehension_raises_inv in E. destruct E as (v & _ & Hv).
  destruct v; congruence.
Qed.

Lemma gj_raises (all_points : list point) (tribes : list json) (e : exn) :
  gj all_points tribes = Raise e -> e <> ZeroDivisionError.
Proof.
  unfold gj, export_ring. fold (poly_ring all_points).
  destruct (poly_ring all_points) eqn:E; cbn [rbind].
  - destruct all_points as [|p0 r]; cbn [first_point rbind]; [intros [= <-]; discriminate|].
    destruct (getitem p0 "lon") eqn:E1; cbn [rbind].
    + destruct (getitem p0 "lat") eqn:E2; cbn [rbind]; [discriminate|].
      intros [= <-]. apply getitem_raises in E2. subst; discriminate.
    + intros [= <-]. apply getitem_raises in E1. subst; discriminate.
  - intros [= <-]. exact (poly_ring_raises _ _ E).
Qed.

(** The main display never divides by zero. *)
Lemma main_display_no_zero_division (net : Q -> Q -> http_reply) (w : widgets) :
  raises_only (fun e => e <> ZeroDivisionError) (main_display net w).
Proof.
  unfold main_display.
  apply raises_only_bind; [apply raises_only_get_state|]. intros s.
  destruct (3 <=? length (all_points_of s))%nat eqn:Hguard; [|apply raises_only_emit].
  apply Nat.leb_le in Hguard.
  apply raises_only_bind.
  { apply raises_only_lift. intros e. apply audit_raises. lia. }
  intros [[c_lat c_lon] tribes].
  apply raises_only_bind; [apply raises_only_emit|]. intros _.
  apply raises_only_bind; [apply raises_only_lift; apply poly_ring_raises|]. intros ring.
  apply raises_only_bind; [apply raises_only_emit|]. intros _.
  apply raises_only_bind; [apply raises_only_emit|]. intros _.
  apply raises_only_bind.
  { apply raises_only_lift. intros e He. apply report_data_raises in He. subst; discriminate. }
  intros report.
  apply raises_only_bind; [apply raises_only_emit|]. intros _.
  apply raises_only_bind; [apply raises_only_emit|]. intros _.
  apply raises_only_bind; [apply raises_only_lift; apply gj_raises|]. intros export.
  apply raises_only_emit.
Qed.

(** ** The three-point guard *)

Lemma main_display_placeholder (net : Q -> Q -> http_reply) (w : widgets) (s : session_state) :
  (length (all_points_of s) < 3)%nat ->
  main_display net w s = {| shown := [placeholder]; final := s; value := Ok tt |}.
Proof.
  intros Hlt. apply Nat.leb_gt in Hlt.
  unfold main_display. rewrite bind_get_state, Hlt. reflexivity.
Qed.

Lemma join_names_text (tribes : list json) :
  names_are_text tribes ->
  join_names tribes = Ok (PyStr.join ", " (map text_of tribes)).
Proof.
  intros H. unfold join_names.
  rewrite (comprehension_map _ text_of); [reflexivity|].
  intros v Hv. unfold names_are_text in H. rewrite Forall_forall in H.
  destruct (H v Hv) as (n & ->). reflexivity.
Qed.

Lemma report_data_text (all_points : list point) (tribes : list json) :
  names_are_text tribes ->
  exists report, report_data all_points tribes = Ok report /\ length report = 4%nat.
Proof.
  intros H. unfold report_data, social_reading.
  destruct (list_truthy tribes); [rewrite (join_names_text tribes H)|];
    cbn [rbind]; eexists; split; reflexivity.
Qed.

Lemma main_display_renders (net : Q -> Q -> http_reply) (w : widgets)
    (imported manual : list coordinate) :
  (3 <= length (imported ++ manual))%nat ->
  (forall a b, names_are_text (territory_lookup (net a b))) ->
  exists lat_c lon_c tribes ring report export,
    run_compliance_audit net (all_points_of (state_of imported manual))
    = Ok (lat_c, lon_c, tribes)
    /\ poly_ring (all_points_of (state_of imported manual)) = Ok ring
    /\ report_data (all_points_of (state_of imported manual)) tribes = Ok report
    /\ gj (all_points_of (state_of imported manual)) tribes = Ok export
    /\ main_display net w (state_of imported manual)
       = {| shown :=
              [st_subheader "🗺️ Spatial Risk Visualization";
               st_pydeck_chart (make_deck ring lat_c lon_c tribes (operator w));
               st_header "📄 EUDR Detailed Compliance Summary";
               st_table report;
               st_divider;
               st_download_button "💾 Download Verified GeoJSON & Report" export
                                  "EUDR_Final_Evidence.geojson"];
            final := state_of imported manual;
            value := Ok tt |}.
Proof.
  intros Hn Htext.
  assert (Hguard : (3 <=? length (all_points_of (state_of imported manual)))%nat = true).
  { apply Nat.leb_le. rewrite all_points_of_state, length_map. exact Hn. }
  pose proof (run_compliance_audit_coordinates net (imported ++ manual) ltac:(lia)) as Haudit.
  cbv zeta in Haudit.
  destruct (report_data_text (all_points_of (state_of imported manual)) _
              (Htext (fold_left Qplus (map latitude (imported ++ manual)) 0
                      / inject_Z (Z.of_nat (length (imported ++ manual))))%Q
                     (fold_left Qplus (map longitude (imported ++ manual)) 0
                      / inject_Z (Z.of_nat (length (imported ++ manual))))%Q))
    as (report & Hreport & _).
  destruct (export_is_polygon imported manual
              (territory_lookup (net
                 (fold_left Qplus (map latitude (imported ++ manual)) 0
                  / inject_Z (Z.of_nat (length (imported ++ manual))))%Q
                 (fold_left Qplus (map longitude (imported ++ manual)) 0
                  / inject_Z (Z.of_nat (length (imported ++ manual))))%Q)) Hn)
    as (export & Hexport).
  eexists _, _, _, _, report, export.
  rewrite <- all_points_of_state in Haudit.
  assert (Hring : poly_ring (all_points_of (state_of imported manual))
                 = Ok (map (fun c => [longitude c; latitude c]) (imported ++ manual))).
  { rewrite all_points_of_state. apply poly_ring_coordinates. }
  split; [exact Haudit|].
  split; [exact Hring|].
  split; [exact Hreport|].
  split; [exact Hexport|].
  unfold main_display. rewrite bind_get_state, Hguard.
  rewrite (bind_lift_ok _ _ _ _ Haudit), bind_emit.
  rewrite (bind_lift_ok _ _ _ _ Hring), !bind_emit.
  rewrite (bind_lift_ok _ _ _ _ Hreport), !bind_emit.
  rewrite (bind_lift_ok _ _ _ _ Hexport). reflexivity.
Qed.

(** From three points on the map is drawn whatever the lookup answers. *)
Lemma main_display_draws_map (net : Q -> Q -> http_reply) (w : widgets)
    (imported manual : list coordinate) :
  (3 <= length (imported ++ manual))%nat ->
  exists map_deck rest,
    shown (main_display net w (state_of imported manual))
    = st_subheader "🗺️ Spatial Risk Visualization" :: st_pydeck_chart map_deck :: rest
    /\ polygon map_deck = map (fun c => [longitude c; latitude c]) (imported ++ manual).
Proof.
  intros Hn.
  assert (Hguard : (3 <=? length (all_points_of (state_of imported manual)))%nat = true).
  { apply Nat.leb_le. rewrite all_points_of_state, length_map. exact Hn. }
  pose proof (run_compliance_audit_coordinates net (imported ++ manual) ltac:(lia)) as Haudit.
  cbv zeta in Haudit. rewrite <- all_points_of_state in Haudit.
  assert (Hring : poly_ring (all_points_of (state_of imported manual))
                 = Ok (map (fun c => [longitude c; latitude c]) (imported ++ manual))).
  { rewrite all_points_of_state. apply poly_ring_coordinates. }
  unfold main_display. rewrite bind_get_state, Hguard.
  rewrite (bind_lift_ok _ _ _ _ Haudit), bind_emit.
  rewrite (bind_lift_ok _ _ _ _ Hring), bind_emit.
  cbn [shown]. eexists _, _. split; reflexivity.
Qed.

(** Without the guard the audit of an empty collection divides by zero. *)
Lemma audit_of_nothing (net : Q -> Q -> http_reply) :
  run_compliance_audit net [] = Raise ZeroDivisionError.
Proof. reflexivity. Qed.

Lemma report_data_rows (all_points : list point) (tribes : list json) :
  names_are_text tribes ->
  exists report,
    report_data all_points tribes = Ok report
    /\ map pillar report
       = ["Environmental Baseline"; "Social Legality"; "Traceability"; "Data Integrity"]
    /\ map item report
       = ["Forest Cover Status"; "Land Use Rights"; "Geolocation Mandate";
          "Geometry Topology"]
    /\ map reading report
       = ["Satellite (Sentinel-2) Overlay";
          ("Indigenous Index: "
           ++ (if list_truthy tribes then PyStr.join ", " (map text_of tribes)
               else "Clear"))%string;
          (PyStr.of_nat (length all_points) ++ " Survey Vertices")%string;
          "Closed Polygon Loop"]
    /\ map finding report
       = ["Zero forest-to-agriculture conversion detected.";
          social_finding tribes;
          "WGS84 Compliant";
          "Valid for TRACES"].
Proof.
  intros H. unfold report_data, social_reading.
  destruct (list_truthy tribes); [rewrite (join_names_text tribes H)|];
    cbn [rbind]; eexists; repeat split.
Qed.

Lemma gj_coordinates (c0 : coordinate) (rest : list coordinate) (tribes : list json) :
  gj (map to_point (c0 :: rest)) tribes
  = Ok (JObj
      [("type", JStr "FeatureCollection");
       ("features", JArr
         [JObj
           [("type", JStr "Feature");
            ("geometry", JObj [("type", JStr "Polygon");
                               ("coordinates",
                                JArr [JArr (map export_pair (c0 :: rest)
                                            ++ [export_pair c0])])]);
            ("properties", JObj [("risk", JStr (risk_label tribes));
                                 ("tribes", JArr tribes)])]])]).
Proof. unfold gj. rewrite export_ring_coordinates. reflexivity. Qed.

(** C5, as stated, fails: three well-formed points and an answer whose
    name is not a string give the map and then [TypeError]; no table and no
    download button are produced. *)
Lemma three_points_without_report :
  length (all_points_of (state_of sample_imported sample_manual)) = 3%nat
  /\ value (main_display net_null_name sample_widgets
                         (state_of sample_imported sample_manual))
     = Raise TypeError
  /\ (forall t,
        ~ In (st_table t)
             (shown (main_display net_null_name sample_widgets
                                  (state_of sample_imported sample_manual))))
  /\ (forall label data file_name,
        ~ In (st_download_button label data file_name)
             (shown (main_display net_null_name sample_widgets
                                  (state_of sample_imported sample_manual)))).
Proof.
  split; [reflexivity|]. split; [reflexivity|].
  split; [intros t | intros label data file_name];
    (intros [H|[H|[H|[]]]]; discriminate H).
Qed.

(** C5, amended: with 0, 1 or 2 points in total the main display is the
    placeholder and nothing else - no audit, map, report or export, whatever
    the network would answer; the main display never raises
    [ZeroDivisionError]; with 3 or more points that each hold a latitude and
    a longitude the map is drawn whatever the lookup answers; and the report
    and the export are produced with it provided every territory name the
    lookup returns is a string.  The page is then the map centred on the
    centroid, the four-row table and the download of the closed polygon. *)
Theorem three_point_guard (net : Q -> Q -> http_reply) (w : widgets) :
  (forall s,
      (length (all_points_of s) < 3)%nat ->
      main_display net w s = {| shown := [placeholder]; final := s; value := Ok tt |})
  /\ (forall s, value (main_display net w s) <> Raise ZeroDivisionError)
  /\ (forall imported manual,
        (3 <= length (imported ++ manual))%nat ->
        exists map_deck rest,
          shown (main_display net w (state_of imported manual))
          = st_subheader "🗺️ Spatial Risk Visualization" :: st_pydeck_chart map_deck :: rest
          /\ polygon map_deck
             = map (fun c => [longitude c; latitude c]) (imported ++ manual))
  /\ (forall imported manual,
        (3 <= length (imported ++ manual))%nat ->
        (forall a b, names_are_text (territory_lookup (net a b))) ->
        exists lat_c lon_c tribes first report,
          run_compliance_audit net (all_points_of (state_of imported manual))
          = Ok (lat_c, lon_c, tribes)
          /\ hd_error (imported ++ manual) = Some first
          /\ main_display net w (state_of imported manual)
             = {| shown :=
                    [st_subheader "🗺️ Spatial Risk Visualization";
                     st_pydeck_chart
                       (make_deck (map (fun c => [longitude c; latitude c])
                                       (imported ++ manual))
                                  lat_c lon_c tribes (operator w));
                     st_header "📄 EUDR Detailed Compliance Summary";
                     st_table report;
                     st_divider;
                     st_download_button "💾 Download Verified GeoJSON & Report"
                       (JObj
                          [("type", JStr "FeatureCollection");
                           ("features", JArr
                             [JObj
                               [("type", JStr "Feature");
                                ("geometry",
                                 JObj [("type", JStr "Polygon");
                                       ("coordinates",
                                        JArr [JArr (map export_pair (imported ++ manual)
                                                    ++ [export_pair first])])]);
                                ("properties",
                                 JObj [("risk", JStr (risk_label tribes));
                                       ("tribes", JArr tribes)])]])])
                       "EUDR_Final_Evidence.geojson"];
                  final := state_of imported manual;
                  value := Ok tt |}
          /\ map pillar report
             = ["Environmental Baseline"; "Social Legality"; "Traceability";
                "Data Integrity"]
          /\ map item report
             = ["Forest Cover Status"; "Land Use Rights"; "Geolocation Mandate";
                "Geometry Topology"]
          /\ map reading report
             = ["Satellite (Sentinel-2) Overlay";
                ("Indigenous Index: "
                 ++ (if list_truthy tribes then PyStr.join ", " (map text_of tribes)
                     else "Clear"))%string;
                (PyStr.of_nat (length (imported ++ manual)) ++ " Survey Vertices")%string;
                "Closed Polygon Loop"]
          /\ map finding report
             = ["Zero forest-to-agriculture conversion detected.";
                social_finding tribes;
                "WGS84 Compliant";
                "Valid for TRACES"]).
Proof.
  split; [intros s; apply main_display_placeholder|].
  split.
  { intros s H. exact (main_display_no_zero_division net w s _ H eq_refl). }
  split; [intros imported manual; apply main_display_draws_map|].
  intros imported manual Hn Htext.
  destruct (main_display_renders net w imported manual Hn Htext)
    as (lat_c & lon_c & tribes & ring & report & export
        & Haudit & Hring & Hreport & Hgj & Hshow).
  assert (Htribes : names_are_text tribes).
  { pose proof Haudit as Ha. rewrite all_points_of_state in Ha.
    rewrite run_compliance_audit_coordinates in Ha by lia.
    injection Ha as _ _ <-. apply Htext. }
  destruct (report_data_rows (all_points_of (state_of imported manual)) tribes Htribes)
    as (report' & Hreport' & Hpillar & Hitem & Hreading & Hfinding).
  rewrite Hreport' in Hreport. injection Hreport as <-.
  rewrite all_points_of_state, length_map in Hreading.
  rewrite all_points_of_state, poly_ring_coordinates in Hring. injection Hring as <-.
  rewrite all_points_of_state in Hgj.
  destruct (imported ++ manual) as [|first rest] eqn:Hcs; [cbn in Hn; lia|].
  rewrite gj_coordinates in Hgj. injection Hgj as <-.
  exists lat_c, lon_c, tribes, first, report'.
  split; [exact Haudit|]. split; [reflexivity|]. split; [exact Hshow|].
  split; [exact Hpillar|]. split; [exact Hitem|]. split; [exact Hreading | exact Hfinding].
Qed.

Lemma three_point_guard_witness :
  ((length (all_points_of two_points) < 3)%nat
   /\ main_display net_timeout sample_widgets two_points
      = {| shown := [placeholder]; final := two_points; value := Ok tt |})
  /\ ((3 <= length (sample_imported ++ sample_manual))%nat
      /\ exists map_deck rest,
           shown (main_display net_timeout sample_widgets
                               (state_of sample_imported sample_manual))
           = st_subheader "🗺️ Spatial Risk Visualization" :: st_pydeck_chart map_deck :: rest
           /\ polygon map_deck
              = map (fun c => [longitude c; latitude c]) (sample_imported ++ sample_manual))
  /\ ((3 <= length (sample_imported ++ sample_manual))%nat
      /\ (forall a b, names_are_text (territory_lookup (net_timeout a b)))
      /\ exists lat_c lon_c tribes first report,
           run_compliance_audit net_timeout
             (all_points_of (state_of sample_imported sample_manual))
           = Ok (lat_c, lon_c, tribes)
           /\ hd_error (sample_imported ++ sample_manual) = Some first
           /\ main_display net_timeout sample_widgets (state_of sample_imported sample_manual)
              = {| shown :=
                     [st_subheader "🗺️ Spatial Risk Visualization";
                      st_pydeck_chart
                        (make_deck (map (fun c => [longitude c; latitude c])
                                        (sample_imported ++ sample_manual))
                                   lat_c lon_c tribes (operator sample_widgets));
                      st_header "📄 EUDR Detailed Compliance Summary";
                      st_table report;
                      st_divider;
                      st_download_button "💾 Download Verified GeoJSON & Report"
                        (JObj
                           [("type", JStr "FeatureCollection");
                            ("features", JArr
                              [JObj
                                [("type", JStr "Feature");
                                 ("geometry",
                                  JObj [("type", JStr "Polygon");
                                        ("coordinates",
                                         JArr [JArr (map export_pair
                                                         (sample_imported ++ sample_manual)
                                                     ++ [export_pair first])])]);
                                 ("properties",
                                  JObj [("risk", JStr (risk_label tribes));
                                        ("tribes", JArr tribes)])]])])
                        "EUDR_Final_Evidence.geojson"];
                   final := state_of sample_imported sample_manual;
                   value := Ok tt |}
           /\ map pillar report
              = ["Environmental Baseline"; "Social Legality"; "Traceability";
                 "Data Integrity"]
           /\ map item report
              = ["Forest Cover Status"; "Land Use Rights"; "Geolocation Mandate";
                 "Geometry Topology"]
           /\ map reading report
              = ["Satellite (Sentinel-2) Overlay";
                 ("Indigenous Index: "
                  ++ (if list_truthy tribes then PyStr.join ", " (map text_of tribes)
                      else "Clear"))%string;
                 (PyStr.of_nat (length (sample_imported ++ sample_manual))
                  ++ " Survey Vertices")%string;
                 "Closed Polygon Loop"]
           /\ map finding report
              = ["Zero forest-to-agriculture conversion detected.";
                 social_finding tribes;
                 "WGS84 Compliant";
                 "Valid for TRACES"]).
Proof.
  destruct (three_point_guard net_timeout sample_widgets)
    as (Hbelow & _ & Hmap & Hrender).
  split; [|split].
  - split; [cbn; lia | apply Hbelow; cbn; lia].
  - split; [cbn; lia | apply Hmap; cbn; lia].
  - split; [cbn; lia|].
    split; [intros a b; constructor|].
    apply Hrender; [cbn; lia | intros a b; constructor].
Defined.

(** ** Spreadsheet ingestion *)

Lemma upload_block_cases (w : widgets) (s : session_state) :
  upload_block w s
  = match uploaded_file w with
    | None => {| shown := []; final := s; value := Ok tt |}
    | Some f =>
        match parse_upload f with
        | Ok (Some records) =>
            {| shown := [st_success ("Loaded " ++ PyStr.of_nat (length records) ++ " points.")];
               final := mk_state (manual_points s) records;
               value := Ok tt |}
        | Ok None => {| shown := []; final := s; value := Ok tt |}
        | Raise RerunException => {| shown := []; final := s; value := Raise RerunException |}
        | Raise e =>
            {| shown := [st_error ("Excel Error: " ++ exn_message e)];
               final := s;
               value := Ok tt |}
        end
    end.
Proof.
  unfold upload_block. destruct (uploaded_file w) as [f|]; [|reflexivity].
  unfold try_except, ingest. destruct (parse_upload f) as [[records|]|e] eqn:E.
  - rewrite (bind_lift_ok _ _ _ _ eq_refl). reflexivity.
  - rewrite (bind_lift_ok _ _ _ _ eq_refl). reflexivity.
  - rewrite (bind_lift_raise _ _ _ _ eq_refl). destruct e; reflexivity.
Qed.

Lemma positions_from_in (k : string) (cols : list string) (i : nat) :
  In k cols -> Pandas.positions_from i k cols <> [].
Proof.
  revert i; induction cols as [|c cols IH]; intros i Hin; [contradiction|].
  cbn [Pandas.positions_from]. destruct (String.eqb k c) eqn:E; [discriminate|].
  destruct Hin as [->|Hin]; [rewrite String.eqb_refl in E; discriminate | now apply IH].
Qed.

Lemma first_containing_some (sub : string) (cols : list string) (c : string) :
  first_containing sub cols = Some c -> In c cols /\ PyStr.contains sub c = true.
Proof. apply find_some. Qed.

(** A name that contains "lat" or "lon" is not empty. *)
Lemma contains_truthy (sub c : string) :
  sub <> "" -> PyStr.contains sub c = true -> PyStr.truthy c = true.
Proof.
  intros Hsub H. destruct c; [|reflexivity].
  destruct sub; [contradiction | discriminate H].
Qed.

(** Selecting the two columns found never raises. *)
Lemma indexer_found (cols : list string) (la lo : string) :
  In la cols -> In lo cols ->
  Pandas.indexer [la; lo] cols
  = Ok (Pandas.positions la cols ++ Pandas.positions lo cols).
Proof.
  intros Hla Hlo. cbn [Pandas.indexer]. unfold Pandas.positions.
  pose proof (positions_from_in la cols 0 Hla) as H1.
  pose proof (positions_from_in lo cols 0 Hlo) as H2.
  destruct (Pandas.positions_from 0 la cols); [contradiction|].
  destruct (Pandas.positions_from 0 lo cols); [contradiction|].
  cbn [rbind]. now rewrite app_nil_r.
Qed.

(** What [parse_upload] returns on a readable sheet: it never raises. *)
Lemma parse_upload_workbook (df : Pandas.dataframe) :
  parse_upload (Workbook df)
  = match first_containing "lat" (header_of df), first_containing "lon" (header_of df) with
    | Some la, Some lo =>
        let ix := Pandas.positions la (header_of df)
                  ++ Pandas.positions lo (header_of df) in
        let selected := Pandas.take None (Pandas.set_columns df (header_of df)) ix in
        let clean_df := Pandas.head 100 (Pandas.dropna selected) in
        let renaming := dict_set (dict_set [] la "lat") lo "lon" in
        Ok (Some (Pandas.to_dict_records (Pandas.rename renaming clean_df)))
    | _, _ => Ok None
    end.
Proof.
  unfold parse_upload, header_of. cbn [read_excel rbind Pandas.set_columns Pandas.columns].
  destruct (first_containing "lat" _) as [la|] eqn:Ela; [|reflexivity].
  destruct (first_containing "lon" _) as [lo|] eqn:Elo; [|reflexivity].
  apply first_containing_some in Ela, Elo. destruct Ela as (Hla & Cla), Elo as (Hlo & Clo).
  rewrite (contains_truthy "lat" la), (contains_truthy "lon" lo) by (assumption || discriminate).
  cbn [andb]. unfold extract_records, Pandas.select.
  cbn [Pandas.columns Pandas.set_columns].
  rewrite (indexer_found _ la lo Hla Hlo). reflexivity.
Qed.

Lemma all_present_incomplete (ix : list nat) (row : list Pandas.cell) :
  row_incomplete ix row = true ->
  Pandas.all_present (map (fun i => nth i row None) ix) = None.
Proof.
  unfold row_incomplete. induction ix as [|i ix IH]; cbn [existsb map Pandas.all_present].
  - discriminate.
  - destruct (nth i row None); [|reflexivity].
    cbn [orb]. intros H. now rewrite (IH H).
Qed.

Lemma dropna_rows_incomplete (ix : list nat) (rs : list (list Pandas.cell)) :
  forallb (row_incomplete ix) rs = true ->
  Pandas.dropna_rows (map (fun row => map (fun i => nth i row None) ix) rs) = [].
Proof.
  induction rs as [|r rs IH]; cbn [forallb map Pandas.dropna_rows]; [reflexivity|].
  intros H. apply andb_prop in H. destruct H as (Hr & Hrs).
  pose proof (all_present_incomplete ix r Hr) as Hnone.
  unfold Pandas.cell in Hnone. rewrite Hnone. now apply IH.
Qed.

(** C7: an upload that succeeds stores exactly the records read from the
    file, whatever was imported before (overwrite, not append); uploading the
    same file again changes nothing more, so the imported list is never
    duplicated; and no upload, successful or not, touches the manual list. *)
Theorem upload_overwrites (w : widgets) (s : session_state) :
  manual_points (final (upload_block w s)) = manual_points s
  /\ final (upload_block w (final (upload_block w s))) = final (upload_block w s)
  /\ (forall f records,
        uploaded_file w = Some f ->
        parse_upload f = Ok (Some records) ->
        upload_block w s
        = {| shown := [st_success ("Loaded " ++ PyStr.of_nat (length records) ++ " points.")];
             final := {| manual_points := manual_points s; excel_points := records |};
             value := Ok tt |}).
Proof.
  split; [|split].
  - rewrite upload_block_cases.
    destruct (uploaded_file w) as [f|]; [|reflexivity].
    destruct (parse_upload f) as [[records|]|e]; try reflexivity.
    destruct e; reflexivity.
  - rewrite (upload_block_cases w s).
    destruct (uploaded_file w) as [f|] eqn:Ef.
    + destruct (parse_upload f) as [[records|]|e] eqn:Ep;
        [| |destruct e]; cbn [final]; rewrite upload_block_cases, Ef, Ep; reflexivity.
    + cbn [final]. rewrite upload_block_cases, Ef. reflexivity.
  - intros f records Ef Ep. rewrite upload_block_cases, Ef, Ep. reflexivity.
Qed.

Lemma upload_overwrites_witness :
  uploaded_file (uploading (Workbook sheet_scenario)) = Some (Workbook sheet_scenario)
  /\ parse_upload (Workbook sheet_scenario)
     = Ok (Some (map to_point
                   [mk_coordinate 1 10; mk_coordinate 2 20; mk_coordinate 4 40;
                    mk_coordinate 5 50; mk_coordinate 6 60]))
  /\ upload_block (uploading (Workbook sheet_scenario)) busy_state
     = {| shown := [st_success "Loaded 5 points."];
          final := state_of [mk_coordinate 1 10; mk_coordinate 2 20; mk_coordinate 4 40;
                             mk_coordinate 5 50; mk_coordinate 6 60] sample_manual;
          value := Ok tt |}.
Proof.
  split; [reflexivity|]. split; [reflexivity|].
  exact (proj2 (proj2 (upload_overwrites (uploading (Workbook sheet_scenario)) busy_state))
           (Workbook sheet_scenario) _ eq_refl eq_refl).
Defined.

(** C8, as stated, fails: a sheet without a latitude or longitude column
    leaves the points as they were, but nothing at all is shown. *)
Lemma missing_columns_show_nothing :
  first_containing "lat" (header_of sheet_without_columns) = None
  /\ upload_block (uploading (Workbook sheet_without_columns)) busy_state
     = {| shown := []; final := busy_state; value := Ok tt |}.
Proof. split; reflexivity. Qed.

(** C8, amended: a file that cannot be read leaves both point lists
    unchanged, the exception is caught and the message "Excel Error: ..." is
    shown; a sheet in which the latitude or the longitude column is absent
    also leaves both lists unchanged and raises nothing, and shows no
    message. *)
Theorem ingestion_errors_keep_points (w : widgets) (s : session_state) :
  (forall msg,
      uploaded_file w = Some (Unreadable msg) ->
      upload_block w s
      = {| shown := [st_error ("Excel Error: " ++ msg)]; final := s; value := Ok tt |})
  /\ (forall df,
        uploaded_file w = Some (Workbook df) ->
        first_containing "lat" (header_of df) = None
        \/ first_containing "lon" (header_of df) = None ->
        upload_block w s = {| shown := []; final := s; value := Ok tt |}).
Proof.
  split.
  - intros msg Ef. rewrite upload_block_cases, Ef. reflexivity.
  - intros df Ef Hmiss. rewrite upload_block_cases, Ef, parse_upload_workbook.
    destruct Hmiss as [-> | ->]; [reflexivity|].
    destruct (first_containing "lat" (header_of df)); reflexivity.
Qed.

Lemma ingestion_errors_keep_points_witness :
  (uploaded_file (uploading (Unreadable "File is not a zip file"))
   = Some (Unreadable "File is not a zip file")
   /\ upload_block (uploading (Unreadable "File is not a zip file")) busy_state
      = {| shown := [st_error "Excel Error: File is not a zip file"];
           final := busy_state;
           value := Ok tt |})
  /\ (uploaded_file (uploading (Workbook sheet_without_columns))
      = Some (Workbook sheet_without_columns)
      /\ (first_containing "lat" (header_of sheet_without_columns) = None
          \/ first_containing "lon" (header_of sheet_without_columns) = None)
      /\ upload_block (uploading (Workbook sheet_without_columns)) busy_state
         = {| shown := []; final := busy_state; value := Ok tt |}).
Proof.
  split.
  - split; [reflexivity|].
    exact (proj1 (ingestion_errors_keep_points
                    (uploading (Unreadable "File is not a zip file")) busy_state)
             _ eq_refl).
  - split; [reflexivity|]. split; [left; reflexivity|].
    exact (proj2 (ingestion_errors_keep_points
                    (uploading (Workbook sheet_without_columns)) busy_state)
             _ eq_refl (or_introl eq_refl)).
Defined.

(** C9: when the latitude and longitude columns are found but every row
    misses a cell in one of them (a sheet with a header only is such a
    sheet), the upload still succeeds: the imported list becomes empty,
    whatever it held, and "Loaded 0 points." is shown.  When a column is
    missing, instead, the state is left as it was. *)
Theorem empty_upload_erases (w : widgets) (s : session_state) (df : Pandas.dataframe) :
  uploaded_file w = Some (Workbook df) ->
  (forall la lo,
      first_containing "lat" (header_of df) = Some la ->
      first_containing "lon" (header_of df) = Some lo ->
      forallb (row_incomplete (Pandas.positions la (header_of df)
                               ++ Pandas.positions lo (header_of df)))
              (Pandas.rows df) = true ->
      upload_block w s
      = {| shown := [st_success "Loaded 0 points."];
           final := {| manual_points := manual_points s; excel_points := [] |};
           value := Ok tt |})
  /\ (first_containing "lat" (header_of df) = None
      \/ first_containing "lon" (header_of df) = None ->
      final (upload_block w s) = s).
Proof.
  intros Ef. split.
  - intros la lo Ela Elo Hrows.
    rewrite upload_block_cases, Ef, parse_upload_workbook, Ela, Elo.
    cbv zeta. unfold Pandas.dropna, Pandas.take.
    cbn [Pandas.rows Pandas.columns Pandas.set_columns].
    rewrite (dropna_rows_incomplete _ _ Hrows). reflexivity.
  - intros Hmiss. rewrite upload_block_cases, Ef, parse_upload_workbook.
    destruct Hmiss as [-> | ->]; [reflexivity|].
    destruct (first_containing "lat" (header_of df)); reflexivity.
Qed.

Lemma empty_upload_erases_witness :
  uploaded_file (uploading (Workbook sheet_without_rows)) = Some (Workbook sheet_without_rows)
  /\ first_containing "lat" (header_of sheet_without_rows) = Some "lat"
  /\ first_containing "lon" (header_of sheet_without_rows) = Some "long"
  /\ forallb (row_incomplete (Pandas.positions "lat" (header_of sheet_without_rows)
                              ++ Pandas.positions "long" (header_of sheet_without_rows)))
             (Pandas.rows sheet_without_rows) = true
  /\ upload_block (uploading (Workbook sheet_without_rows)) busy_state
     = {| shown := [st_success "Loaded 0 points."];
          final := {| manual_points := manual_points busy_state; excel_points := [] |};
          value := Ok tt |}.
Proof.
  repeat (split; [reflexivity|]).
  exact (proj1 (empty_upload_erases (uploading (Workbook sheet_without_rows)) busy_state
                  sheet_without_rows eq_refl)
           "lat" "long" eq_refl eq_refl eq_refl).
Defined.

(** ** Ingestion of a sheet with separate latitude and longitude columns *)

Lemma positions_from_nth (k : string) (cols : list string) (b p : nat) :
  In p (Pandas.positions_from b k cols) ->
  (b <= p)%nat /\ nth (p - b) cols "" = k.
Proof.
  revert b; induction cols as [|c cols IH]; intros b; cbn [Pandas.positions_from];
    [contradiction|].
  destruct (String.eqb k c) eqn:E.
  - intros [<-|Hin].
    + apply String.eqb_eq in E. subst c. rewrite Nat.sub_diag. split; [lia|reflexivity].
    + destruct (IH (S b) Hin) as (Hle & Hnth). split; [lia|].
      replace (p - b)%nat with (S (p - S b)) by lia. exact Hnth.
  - intros Hin. destruct (IH (S b) Hin) as (Hle & Hnth). split; [lia|].
    replace (p - b)%nat with (S (p - S b)) by lia. exact Hnth.
Qed.

Lemma positions_nth (k : string) (cols : list string) (p : nat) :
  Pandas.positions k cols = [p] -> nth p cols "" = k.
Proof.
  unfold Pandas.positions. intros H.
  destruct (positions_from_nth k cols 0 p) as (_ & Hnth); [rewrite H; now left|].
  now rewrite Nat.sub_0_r in Hnth.
Qed.

Lemma dropna_rows_pairs (i j : nat) (rs : list (list Pandas.cell)) :
  Pandas.dropna_rows (map (fun row => [nth i row None; nth j row None]) rs)
  = map (fun c => [latitude c; longitude c]) (complete_rows i j rs).
Proof.
  induction rs as [|r rs IH]; [reflexivity|].
  cbn [map Pandas.dropna_rows Pandas.all_present complete_rows]. unfold coordinate_of_row.
  unfold Pandas.cell in *.
  destruct (nth i r None); [destruct (nth j r None)|]; cbn [map]; now rewrite IH.
Qed.

Lemma records_of_pairs (cs : list coordinate) :
  map (dict_of_zip ["lat"; "lon"]) (map (fun c => [latitude c; longitude c]) cs)
  = map to_point cs.
Proof. rewrite map_map. reflexivity. Qed.

(** The records of a sheet in which the latitude and the longitude column
    are two columns, each the only one of its name: the first hundred rows
    that miss neither cell, as [{'lat': ..., 'lon': ...}]. *)
Lemma parse_upload_two_columns (df : Pandas.dataframe) (la lo : string) (i j : nat) :
  first_containing "lat" (header_of df) = Some la ->
  first_containing "lon" (header_of df) = Some lo ->
  Pandas.positions la (header_of df) = [i] ->
  Pandas.positions lo (header_of df) = [j] ->
  la <> lo ->
  parse_upload (Workbook df)
  = Ok (Some (map to_point (firstn 100 (complete_rows i j (Pandas.rows df))))).
Proof.
  intros Ela Elo Hi Hj Hne.
  rewrite parse_upload_workbook, Ela, Elo, Hi, Hj. cbv zeta.
  unfold Pandas.to_dict_records, Pandas.rename, Pandas.head, Pandas.dropna, Pandas.take.
  cbn [Pandas.rows Pandas.columns Pandas.set_columns List.app map].
  unfold Pandas.cell. rewrite (dropna_rows_pairs i j), <- firstn_map.
  cbn [map]. rewrite (positions_nth _ _ _ Hi), (positions_nth _ _ _ Hj).
  cbn [dict_set dict_get].
  assert (Hlo : String.eqb lo la = false) by (apply String.eqb_neq; congruence).
  rewrite Hlo. cbn [dict_get]. rewrite (String.eqb_refl la), Hlo, (String.eqb_refl lo).
  rewrite records_of_pairs. now rewrite firstn_map.
Qed.

(** The ingestion scenario: columns Lat and Long, five valid rows and one
    row without a latitude give five imported points. *)
Example scenario_five_points :
  exists records,
    parse_upload (Workbook sheet_scenario) = Ok (Some records)
    /\ length records = 5%nat
    /\ upload_block (uploading (Workbook sheet_scenario)) initial_state
       = {| shown := [st_success "Loaded 5 points."];
            final := {| manual_points := []; excel_points := records |};
            value := Ok tt |}.
Proof.
  eexists. split; [apply (parse_upload_two_columns sheet_scenario "lat" "long" 0 1);
                   (reflexivity || discriminate)|].
  split; reflexivity.
Qed.

(** C6 fails at a sheet whose one column name contains both "lat" and
    "lon": that column is picked twice, the renaming
    [{lat_col: 'lat', lon_col: 'lon'}] holds a single entry, and the stored
    records have a longitude but no latitude.  The upload reports success,
    and the audit of the three points then raises [KeyError]. *)
Lemma shared_column_drops_latitude :
  first_containing "lat" (header_of sheet_shared_column) = Some "latlon"
  /\ first_containing "lon" (header_of sheet_shared_column) = Some "latlon"
  /\ upload_block (uploading (Workbook sheet_shared_column)) initial_state
     = {| shown := [st_success "Loaded 3 points."];
          final := {| manual_points := [];
                      excel_points := [[("lon", 1)]; [("lon", 2)]; [("lon", 3)]]%Q |};
          value := Ok tt |}
  /\ value (script net_timeout (uploading (Workbook sheet_shared_column)) initial_state)
     = Raise (KeyError "lat").
Proof. repeat split. Qed.

(** * Further properties *)

(** ** Composition in the script monad *)

Lemma bind_value_ok {A B} (m : M A) (k : A -> M B) (s : session_state) (a : A) :
  value (m s) = Ok a ->
  bind m k s
  = {| shown := shown (m s) ++ shown (k a (final (m s)));
       final := final (k a (final (m s)));
       value := value (k a (final (m s))) |}.
Proof. intros H. unfold bind. rewrite H. reflexivity. Qed.

Lemma bind_value_raise {A B} (m : M A) (k : A -> M B) (s : session_state) (e : exn) :
  value (m s) = Raise e ->
  bind m k s = {| shown := shown (m s); final := final (m s); value := Raise e |}.
Proof. intros H. unfold bind. rewrite H. reflexivity. Qed.

Lemma final_bind {A B} (m : M A) (k : A -> M B) (s : session_state) :
  final (bind m k s)
  = match value (m s) with
    | Ok a => final (k a (final (m s)))
    | Raise _ => final (m s)
    end.
Proof. unfold bind. destruct (value (m s)); reflexivity. Qed.

Lemma keeps_state_bind {A B} (m : M A) (k : A -> M B) :
  keeps_state m -> (forall a, keeps_state (k a)) -> keeps_state (bind m k).
Proof.
  intros Hm Hk s. rewrite final_bind. destruct (value (m s)).
  - rewrite Hm. apply Hk.
  - apply Hm.
Qed.

Lemma keeps_state_emit (x : element) : keeps_state (emit x).
Proof. intros s; reflexivity. Qed.

Lemma keeps_state_lift {A} (r : result A) : keeps_state (lift r).
Proof. intros s; reflexivity. Qed.

Lemma keeps_state_get_state : keeps_state get_state.
Proof. intros s; reflexivity. Qed.

(** ** The upload block never raises *)

Lemma parse_upload_raises (f : excel_file) (e : exn) :
  parse_upload f = Raise e -> exists msg, f = Unreadable msg /\ e = ExcelReadError msg.
Proof.
  destruct f as [msg|df].
  - cbn. intros [= <-]. eauto.
  - rewrite parse_upload_workbook.
    destruct (first_containing "lat" (header_of df));
      [destruct (first_containing "lon" (header_of df))|]; discriminate.
Qed.

Lemma upload_block_value (w : widgets) (s : session_state) :
  value (upload_block w s) = Ok tt.
Proof.
  rewrite upload_block_cases. destruct (uploaded_file w) as [f|]; [|reflexivity].
  destruct (parse_upload f) as [[records|]|e] eqn:E; try reflexivity.
  destruct (parse_upload_raises f e E) as (msg & _ & ->). reflexivity.
Qed.

(** ** The sidebar in closed form *)

Lemma add_manual_point_outcome (w : widgets) (s : session_state) :
  add_manual_point w s = {| shown := []; final := after_add w s; value := Ok tt |}.
Proof.
  unfold add_manual_point, after_add, when, manual_entry.
  destruct (add_clicked w); reflexivity.
Qed.

Lemma reset_all_outcome (w : widgets) (s : session_state) :
  reset_all w s
  = if reset_clicked w
    then {| shown := []; final := initial_state; value := Raise RerunException |}
    else {| shown := []; final := s; value := Ok tt |}.
Proof. unfold reset_all, when. destruct (reset_clicked w); reflexivity. Qed.

Lemma sidebar_outcome (w : widgets) (s : session_state) :
  sidebar w s
  = {| shown := st_header "📂 Input Sources"
                :: shown (upload_block w s) ++ [st_divider; st_divider];
       final := if reset_clicked w then initial_state
                else after_add w (final (upload_block w s));
       value := if reset_clicked w then Raise RerunException else Ok tt |}.
Proof.
  unfold sidebar. rewrite bind_emit.
  rewrite (bind_value_ok (upload_block w) _ s tt (upload_block_value w s)).
  cbn [shown final value]. rewrite bind_emit.
  rewrite (bind_value_ok (add_manual_point w) _ _ tt)
    by (rewrite add_manual_point_outcome; reflexivity).
  rewrite add_manual_point_outcome. cbn [shown final value List.app].
  rewrite bind_emit, reset_all_outcome.
  destruct (reset_clicked w); reflexivity.
Qed.

(** ** The main display: state and exceptions *)

Lemma lon_lat_data_error (p : point) (e : exn) :
  lon_lat p = Raise e -> data_error e.
Proof.
  unfold lon_lat. destruct (getitem p "lon") eqn:E1; cbn [rbind].
  - destruct (getitem p "lat") eqn:E2; cbn [rbind]; [discriminate|].
    intros [= <-]. apply getitem_raises in E2. subst; exact I.
  - intros [= <-]. apply getitem_raises in E1. subst; exact I.
Qed.

Lemma poly_ring_data_error (all_points : list point) (e : exn) :
  poly_ring all_points = Raise e -> data_error e.
Proof.
  intros H. apply comprehension_raises_inv in H. destruct H as (p & _ & Hp).
  exact (lon_lat_data_error p e Hp).
Qed.

Lemma audit_data_error (net : Q -> Q -> http_reply) (points : list point) (e : exn) :
  (0 < length points)%nat ->
  run_compliance_audit net points = Raise e -> data_error e.
Proof.
  intros Hn. unfold run_compliance_audit.
  destruct (sum_items "lat" points 0) eqn:E1; cbn [rbind].
  - rewrite truediv_pos by exact Hn. cbn [rbind].
    destruct (sum_items "lon" points 0) eqn:E2; cbn [rbind].
    + rewrite truediv_pos by exact Hn. cbn [rbind]. discriminate.
    + intros [= <-]. apply sum_items_raises in E2. subst; exact I.
  - intros [= <-]. apply sum_items_raises in E1. subst; exact I.
Qed.

Lemma gj_data_error (all_points : list point) (tribes : list json) (e : exn) :
  gj all_points tribes = Raise e -> data_error e.
Proof.
  unfold gj, export_ring. fold (poly_ring all_points).
  destruct (poly_ring all_points) eqn:E; cbn [rbind].
  - destruct all_points as [|p0 r]; cbn [first_point rbind]; [intros [= <-]; exact I|].
    destruct (getitem p0 "lon") eqn:E1; cbn [rbind].
    + destruct (getitem p0 "lat") eqn:E2; cbn [rbind]; [discriminate|].
      intros [= <-]. apply getitem_raises in E2. subst; exact I.
    + intros [= <-]. apply getitem_raises in E1. subst; exact I.
  - intros [= <-]. exact (poly_ring_data_error _ _ E).
Qed.

Lemma main_display_data_errors (net : Q -> Q -> http_reply) (w : widgets) :
  raises_only data_error (main_display net w).
Proof.
  unfold main_display.
  apply raises_only_bind; [apply raises_only_get_state|]. intros s.
  destruct (3 <=? length (all_points_of s))%nat eqn:Hguard; [|apply raises_only_emit].
  apply Nat.leb_le in Hguard.
  apply raises_only_bind.
  { apply raises_only_lift. intros e. apply audit_data_error. lia. }
  intros [[c_lat c_lon] tribes].
  apply raises_only_bind; [apply raises_only_emit|]. intros _.
  apply raises_only_bind; [apply raises_only_lift; apply poly_ring_data_error|]. intros ring.
  apply raises_only_bind; [apply raises_only_emit|]. intros _.
  apply raises_only_bind; [apply raises_only_emit|]. intros _.
  apply raises_only_bind.
  { apply raises_only_lift. intros e He. apply report_data_raises in He. subst; exact I. }
  intros report.
  apply raises_only_bind; [apply raises_only_emit|]. intros _.
  apply raises_only_bind; [apply raises_only_emit|]. intros _.
  apply raises_only_bind; [apply raises_only_lift; apply gj_data_error|]. intros export.
  apply raises_only_emit.
Qed.

Lemma main_display_keeps_state (net : Q -> Q -> http_reply) (w : widgets) :
  keeps_state (main_display net w).
Proof.
  unfold main_display.
  apply keeps_state_bind; [apply keeps_state_get_state|]. intros s.
  destruct (3 <=? length (all_points_of s))%nat; [|apply keeps_state_emit].
  apply keeps_state_bind; [apply keeps_state_lift|]. intros [[c_lat c_lon] tribes].
  repeat (apply keeps_state_bind;
          [first [apply keeps_state_emit | apply keeps_state_lift]|]; intros ?).
  apply keeps_state_emit.
Qed.

(** ** One execution of the script in closed form *)

Lemma script_once_outcome (net : Q -> Q -> http_reply) (w : widgets) (s : session_state) :
  script_once net w s
  = if reset_clicked w
    then {| shown := st_title "⚖️ EUDR Automated Compliance Dashboard"
                     :: st_header "📂 Input Sources"
                     :: shown (upload_block w s) ++ [st_divider; st_divider];
            final := initial_state;
            value := Raise RerunException |}
    else let s' := after_add w (final (upload_block w s)) in
         {| shown := st_title "⚖️ EUDR Automated Compliance Dashboard"
                     :: (st_header "📂 Input Sources"
                         :: shown (upload_block w s) ++ [st_divider; st_divider])
                        ++ shown (main_display net w s');
            final := s';
            value := value (main_display net w s') |}.
Proof.
  unfold script_once. rewrite bind_emit.
  destruct (reset_clicked w) eqn:Hreset.
  - rewrite (bind_value_raise (sidebar w) _ s RerunException)
      by (rewrite sidebar_outcome, Hreset; reflexivity).
    rewrite sidebar_outcome, Hreset. reflexivity.
  - rewrite (bind_value_ok (sidebar w) _ s tt)
      by (rewrite sidebar_outcome, Hreset; reflexivity).
    rewrite sidebar_outcome, Hreset. cbn [shown final value].
    rewrite main_display_keeps_state. reflexivity.
Qed.

Lemma upload_block_released (w : widgets) (s : session_state) :
  upload_block (released w) s = upload_block w s.
Proof. reflexivity. Qed.

(** A run is a single execution, or two when the reset button was pressed. *)
Lemma script_cases (net : Q -> Q -> http_reply) (w : widgets) (s : session_state) :
  script net w s
  = if reset_clicked w
    then script_once net (released w) initial_state
    else script_once net w s.
Proof.
  unfold script. rewrite (script_once_outcome net w s).
  destruct (reset_clicked w) eqn:Hreset; [reflexivity|].
  cbv zeta. cbn [value final].
  destruct (value (main_display net w (after_add w (final (upload_block w s))))) as [u|e] eqn:E;
    [reflexivity|].
  pose proof (main_display_data_errors net w _ e E) as He.
  destruct e; try reflexivity. contradiction.
Qed.

Lemma script_final (net : Q -> Q -> http_reply) (w : widgets) (s : session_state) :
  final (script net w s)
  = if reset_clicked w
    then final (upload_block w initial_state)
    else after_add w (final (upload_block w s)).
Proof.
  rewrite script_cases. destruct (reset_clicked w) eqn:Hreset;
    rewrite script_once_outcome; [|rewrite Hreset; reflexivity].
  cbn [reset_clicked released]. cbv zeta. cbn [final].
  rewrite upload_block_released. reflexivity.
Qed.

(** ** Point store *)

(** X1: pressing "Add Manual Point" (nothing uploaded, no reset) appends
    the dict of the two number inputs, whatever their values, as the last
    point of the working set [excel_points + manual_points]; the imported
    list is untouched, and this holds even when the display then fails. *)
Theorem manual_point_is_appended
    (net : Q -> Q -> http_reply) (w : widgets) (s : session_state) :
  uploaded_file w = None ->
  add_clicked w = true ->
  reset_clicked w = false ->
  all_points_of (final (script net w s)) = all_points_of s ++ [manual_entry w]
  /\ excel_points (final (script net w s)) = excel_points s
  /\ getitem (manual_entry w) "lat" = Ok (m_lat w)
  /\ getitem (manual_entry w) "lon" = Ok (m_lon w).
Proof.
  intros Hfile Hadd Hreset.
  rewrite script_final, Hreset, upload_block_cases, Hfile.
  unfold after_add. rewrite Hadd. cbn [final manual_points excel_points].
  unfold all_points_of. cbn [manual_points excel_points].
  rewrite app_assoc. repeat split; reflexivity.
Qed.

(** X2: "Reset All Data" with no file in the uploader empties both lists,
    whatever they held, and the page that results is the sidebar followed by
    the placeholder alone; the run ends normally. *)
Theorem reset_clears_everything
    (net : Q -> Q -> http_reply) (w : widgets) (s : session_state) :
  uploaded_file w = None ->
  reset_clicked w = true ->
  script net w s
  = {| shown := [st_title "⚖️ EUDR Automated Compliance Dashboard";
                 st_header "📂 Input Sources";
                 st_divider; st_divider;
                 placeholder];
       final := initial_state;
       value := Ok tt |}.
Proof.
  intros Hfile Hreset. rewrite script_cases, Hreset, script_once_outcome.
  cbn [reset_clicked released]. cbv zeta.
  rewrite upload_block_released, upload_block_cases, Hfile.
  cbn [shown final]. unfold after_add. cbn [add_clicked released].
  rewrite main_display_placeholder by (cbn; lia). reflexivity.
Qed.

(** X3: "Reset All Data" while a readable file with coordinate columns is
    still in the uploader does not leave the imported list empty: the rerun
    that [st.rerun()] starts ingests the file again, so the run ends with an
    empty manual list and the file's records imported. *)
Theorem reset_reimports_uploaded_file
    (net : Q -> Q -> http_reply) (w : widgets) (s : session_state)
    (f : excel_file) (records : list point) :
  uploaded_file w = Some f ->
  parse_upload f = Ok (Some records) ->
  reset_clicked w = true ->
  final (script net w s) = {| manual_points := []; excel_points := records |}.
Proof.
  intros Hfile Hparse Hreset.
  rewrite script_final, Hreset, upload_block_cases, Hfile, Hparse. reflexivity.
Qed.

(** X4: a run never ends with the rerun request of [st.rerun()] pending:
    after a reset the script is executed once more and that execution does
    not ask for another; whatever a run raises is a [KeyError], [TypeError]
    or [IndexError] of the main display. *)
Theorem script_raises_only_data_errors
    (net : Q -> Q -> http_reply) (w : widgets) (s : session_state) (e : exn) :
  value (script net w s) = Raise e -> data_error e /\ e <> RerunException.
Proof.
  rewrite script_cases.
  assert (H : forall w' s', reset_clicked w' = false ->
                            value (script_once net w' s') = Raise e -> data_error e).
  { intros w' s' Hreset. rewrite script_once_outcome, Hreset. cbv zeta. cbn [value].
    apply main_display_data_errors. }
  intros Hv.
  assert (He : data_error e).
  { destruct (reset_clicked w) eqn:Hreset; [apply (H (released w) initial_state) | apply (H w s)];
      (reflexivity || assumption). }
  split; [exact He|]. intros ->. exact He.
Qed.

(** X5: what a run leaves in the point lists depends on the widgets and on
    the lists before it only: not on what the network answers, nor on
    whether the main display fails. *)
Theorem points_do_not_depend_on_network
    (net net' : Q -> Q -> http_reply) (w : widgets) (s : session_state) :
  final (script net w s) = final (script net' w s)
  /\ final (main_display net w s) = s.
Proof.
  split; [now rewrite !script_final | apply main_display_keeps_state].
Qed.

(** ** More on ingestion *)

(** X7: the upload block shows "Excel Error" exactly when [pd.read_excel]
    cannot read the file; a readable sheet, whatever its columns and cells,
    never produces an error message, and in no case does an exception leave
    the upload block. *)
Theorem excel_error_only_for_unreadable_files (w : widgets) (s : session_state) :
  ((exists m, In (st_error m) (shown (upload_block w s)))
   <-> exists msg, uploaded_file w = Some (Unreadable msg))
  /\ value (upload_block w s) = Ok tt.
Proof.
  split; [|apply upload_block_value].
  rewrite upload_block_cases. destruct (uploaded_file w) as [[msg|df]|].
  - cbn. split; eauto.
  - rewrite parse_upload_workbook.
    split.
    + intros (m & Hm). exfalso.
      destruct (first_containing "lat" (header_of df));
        [destruct (first_containing "lon" (header_of df))|];
        cbv zeta in Hm; cbn [shown In] in Hm;
        repeat (destruct Hm as [Hm|Hm]; [discriminate Hm|]); exact Hm.
    + intros (msg & [=]).
  - cbn. split; [intros (m & []) | intros (msg & [=])].
Qed.

Lemma dropna_rows_length {V} (rs : list (list (option V))) :
  (length (Pandas.dropna_rows rs) <= length rs)%nat.
Proof.
  induction rs as [|r rs IH]; [apply Nat.le_refl|].
  cbn [Pandas.dropna_rows]. destruct (Pandas.all_present r); cbn [length]; lia.
Qed.

Lemma parse_upload_length (df : Pandas.dataframe) (records : list point) :
  parse_upload (Workbook df) = Ok (Some records) ->
  (length records <= 100)%nat /\ (length records <= length (Pandas.rows df))%nat.
Proof.
  rewrite parse_upload_workbook.
  destruct (first_containing "lat" (header_of df)) as [la|]; [|discriminate].
  destruct (first_containing "lon" (header_of df)) as [lo|]; [|discriminate].
  cbv zeta. intros [= <-].
  unfold Pandas.to_dict_records, Pandas.rename, Pandas.head, Pandas.dropna, Pandas.take.
  cbn [Pandas.rows Pandas.columns Pandas.set_columns].
  rewrite length_map, length_firstn.
  match goal with |- context [Pandas.dropna_rows ?rs] =>
    pose proof (dropna_rows_length rs) as Hlen end.
  rewrite length_map in Hlen.
  split; [apply Nat.le_min_l | etransitivity; [apply Nat.le_min_r | exact Hlen]].
Qed.

(** X8: an upload never stores more than 100 points, nor more points than
    the sheet has rows; and a run of the script keeps the imported list at
    100 points or fewer once it is so (it starts empty). *)
Theorem imported_points_are_capped
    (net : Q -> Q -> http_reply) (w : widgets) (s : session_state) :
  (forall df records,
      parse_upload (Workbook df) = Ok (Some records) ->
      (length records <= 100)%nat /\ (length records <= length (Pandas.rows df))%nat)
  /\ ((length (excel_points s) <= 100)%nat ->
      (length (excel_points (final (script net w s))) <= 100)%nat).
Proof.
  split; [apply parse_upload_length|].
  intros Hs. rewrite script_final.
  assert (Hup : forall s', (length (excel_points s') <= 100)%nat ->
                           (length (excel_points (final (upload_block w s'))) <= 100)%nat).
  { intros s' Hs'. rewrite upload_block_cases.
    destruct (uploaded_file w) as [f|]; [|exact Hs'].
    destruct (parse_upload f) as [[records|]|e] eqn:E; cbn [final excel_points].
    - destruct f as [msg|df]; [discriminate E|].
      apply (parse_upload_length df records E).
    - exact Hs'.
    - destruct e; exact Hs'. }
  destruct (reset_clicked w).
  - apply Hup. cbn. lia.
  - unfold after_add. destruct (add_clicked w); cbn [excel_points]; apply Hup; exact Hs.
Qed.

(** X9: for a sheet whose column names are ASCII and in which the latitude
    column and the longitude column are two different columns, each the only
    one of its normalised name, an upload replaces the imported list by the
    first 100 rows, in sheet order, that miss neither cell - incomplete rows
    are dropped before the cap - each stored as [{'lat': ..., 'lon': ...}],
    and reports their number.  (On names with other characters Python's
    [str.lower] and [str.strip] do more than the model's, and two names may
    fall together that the model keeps apart.) *)
Theorem two_column_sheet_is_imported
    (w : widgets) (s : session_state) (df : Pandas.dataframe)
    (la lo : string) (i j : nat) :
  uploaded_file w = Some (Workbook df) ->
  forallb is_ascii (Pandas.columns df) = true ->
  first_containing "lat" (header_of df) = Some la ->
  first_containing "lon" (header_of df) = Some lo ->
  Pandas.positions la (header_of df) = [i] ->
  Pandas.positions lo (header_of df) = [j] ->
  la <> lo ->
  let imported := firstn 100 (complete_rows i j (Pandas.rows df)) in
  upload_block w s
  = {| shown := [st_success ("Loaded " ++ PyStr.of_nat (length imported) ++ " points.")];
       final := {| manual_points := manual_points s;
                   excel_points := map to_point imported |};
       value := Ok tt |}.
Proof.
  intros Hfile _ Ela Elo Hi Hj Hne imported.
  rewrite upload_block_cases, Hfile.
  rewrite (parse_upload_two_columns df la lo i j Ela Elo Hi Hj Hne).
  fold imported. rewrite length_map. reflexivity.
Qed.

(** ** A column name that matches both patterns *)

Lemma dict_get_set_other {V} (d : pydict V) (k k' : string) (v : V) :
  k <> k' -> dict_get k (dict_set d k' v) = dict_get k d.
Proof.
  intros Hne. induction d as [|[k0 v0] d IH]; cbn [dict_set dict_get].
  - apply String.eqb_neq in Hne. now rewrite Hne.
  - destruct (String.eqb k' k0) eqn:E; cbn [dict_get].
    + apply String.eqb_eq in E. subst k0.
      apply String.eqb_neq in Hne. now rewrite Hne.
    + now rewrite IH.
Qed.

Lemma dict_of_zip_absent {V} (keys : list string) (values : list V) (k : string) :
  ~ In k keys -> dict_get k (dict_of_zip keys values) = None.
Proof.
  intros Hk. unfold dict_of_zip.
  assert (H : forall kvs (d : pydict V),
             (forall kv, In kv kvs -> fst kv <> k) ->
             dict_get k (fold_left (fun d kv => dict_set d (fst kv) (snd kv)) kvs d)
             = dict_get k d).
  { induction kvs as [|kv kvs IH]; intros d Hkvs; [reflexivity|].
    cbn [fold_left]. rewrite IH by (intros kv' Hin; apply Hkvs; now right).
    apply dict_get_set_other. intros ->. exact (Hkvs kv (or_introl eq_refl) eq_refl). }
  rewrite H; [reflexivity|].
  intros [k0 v0] Hin Heq. cbn in Heq. subst k0.
  apply in_combine_l in Hin. exact (Hk Hin).
Qed.

Lemma positions_label (k : string) (cols : list string) (p : nat) :
  In p (Pandas.positions k cols) -> nth p cols "" = k.
Proof.
  unfold Pandas.positions. intros H.
  destruct (positions_from_nth k cols 0 p H) as (_ & Hnth).
  now rewrite Nat.sub_0_r in Hnth.
Qed.

(** X10: whenever one column name is the first to contain "lat" and also
    the first to contain "lon", the upload succeeds but no stored record has
    a 'lat' field; with such records imported the audit raises
    [KeyError('lat')], and so does the main display from three points on. *)
Theorem shared_name_loses_latitude
    (net : Q -> Q -> http_reply) (w : widgets) (df : Pandas.dataframe) (c : string) :
  first_containing "lat" (header_of df) = Some c ->
  first_containing "lon" (header_of df) = Some c ->
  exists records,
    parse_upload (Workbook df) = Ok (Some records)
    /\ (forall r, In r records -> getitem r "lat" = Raise (KeyError "lat"))
    /\ (forall manual,
          records <> [] ->
          run_compliance_audit net (records ++ manual) = Raise (KeyError "lat"))
    /\ (forall s,
          excel_points s = records ->
          records <> [] ->
          (3 <= length (all_points_of s))%nat ->
          main_display net w s
          = {| shown := []; final := s; value := Raise (KeyError "lat") |}).
Proof.
  intros Ela Elo. rewrite parse_upload_workbook, Ela, Elo. cbv zeta.
  eexists. split; [reflexivity|].
  match goal with |- (forall r, In r ?recs -> _) /\ _ =>
    assert (Hlat : forall r, In r recs -> getitem r "lat" = Raise (KeyError "lat")) end.
  { intros r Hr. unfold Pandas.to_dict_records in Hr.
    apply in_map_iff in Hr. destruct Hr as (row & <- & _).
    unfold getitem. rewrite dict_of_zip_absent; [reflexivity|].
    unfold Pandas.rename, Pandas.head, Pandas.dropna, Pandas.take.
    cbn [Pandas.columns Pandas.set_columns dict_set]. rewrite String.eqb_refl.
    rewrite map_map. intros Hin. apply in_map_iff in Hin.
    destruct Hin as (p & Hp & Hin).
    rewrite (positions_label c (header_of df) p) in Hp
      by (apply in_app_or in Hin; tauto).
    cbn [dict_get] in Hp. rewrite String.eqb_refl in Hp. discriminate Hp. }
  assert (Haudit : forall recs manual,
             (forall r, In r recs -> getitem r "lat" = Raise (KeyError "lat")) ->
             recs <> [] ->
             run_compliance_audit net (recs ++ manual) = Raise (KeyError "lat")).
  { intros recs manual H Hne. destruct recs as [|r recs]; [contradiction|].
    unfold run_compliance_audit. cbn [List.app sum_items].
    rewrite (H r (or_introl eq_refl)). reflexivity. }
  split; [exact Hlat|]. split; [intros manual; apply Haudit; exact Hlat|].
  intros s Hs Hne Hn. unfold main_display. rewrite bind_get_state.
  apply Nat.leb_le in Hn. rewrite Hn.
  apply bind_lift_raise. unfold all_points_of. rewrite Hs.
  apply Haudit; assumption.
Qed.

(** ** More on the territory lookup *)

Lemma comprehension_length {A B} (f : A -> result B) (l : list A) (ys : list B) :
  comprehension f l = Ok ys -> length ys = length l.
Proof.
  revert ys; induction l as [|x l IH]; intros ys; cbn [comprehension].
  - now intros [= <-].
  - destruct (f x); cbn [rbind]; [|discriminate].
    destruct (comprehension f l) as [ys'|]; cbn [rbind]; [|discriminate].
    intros [= <-]. cbn [length]. now rewrite (IH ys' eq_refl).
Qed.

Lemma comprehension_names (items : list json) :
  existsb lacks_name items = false ->
  exists names, comprehension name_of items = Ok names.
Proof.
  induction items as [|r items IH]; cbn [existsb comprehension]; [eauto|].
  intros H. apply orb_false_elim in H. destruct H as (Hr & Hitems).
  destruct (name_of r) as [n|e] eqn:E.
  - destruct (IH Hitems) as (names & ->). cbn [rbind]. eauto.
  - assert (lacks_name r = true) by (apply lacks_name_raises; eauto). congruence.
Qed.

Lemma comprehension_not_objects {A} (f : A -> json) (l : list A) :
  (forall s, exists t, f s = JStr t) ->
  comprehension name_of (map f l) = Ok [] \/ exists e, comprehension name_of (map f l) = Raise e.
Proof.
  intros Hf. destruct l as [|s l]; [now left|]. right.
  cbn [map comprehension]. destruct (Hf s) as (t & ->). cbn. eauto.
Qed.

Lemma chars_as_map (s : string) :
  chars s = map (fun c => JStr (String c EmptyString)) (list_ascii_of_string s).
Proof. induction s as [|c s IH]; [reflexivity|]. cbn. now rewrite IH. Qed.

Lemma risk_label_high (tribes : list json) :
  risk_label tribes = "High Risk" <-> tribes <> [].
Proof. destruct tribes; cbn; split; congruence. Qed.

Lemma lookup_of_array (status : Z) (items : list json) :
  territory_lookup (Response status (Some (JArr items)))
  = match comprehension name_of items with
    | Ok names => names
    | Raise _ => []
    end.
Proof. reflexivity. Qed.

Lemma name_of_carried (r n : json) : carries_name r n -> name_of r = Ok n.
Proof.
  intros (members & props & -> & Hprops & Hname).
  unfold name_of, subscript, getitem. rewrite Hprops. cbn [rbind]. now rewrite Hname.
Qed.

(** X11: when the body is an array whose items each carry a name under
    [properties.Name] - whatever other members the items and their
    properties have - the lookup returns exactly those names, in the order
    of the answer and with repetitions kept, under any status code. *)
Theorem lookup_returns_names_in_order (status : Z) (items names : list json) :
  Forall2 carries_name items names ->
  territory_lookup (Response status (Some (JArr items))) = names.
Proof.
  intros H. rewrite lookup_of_array.
  assert (Hc : comprehension name_of items = Ok names).
  { induction H as [|r n items names Hr _ IH]; [reflexivity|].
    cbn [comprehension]. rewrite (name_of_carried r n Hr), IH. reflexivity. }
  now rewrite Hc.
Qed.

(** X12: the lookup is non-empty - and the risk label "High Risk" - exactly
    when a response arrived whose body is a non-empty JSON array in which
    every item carries [properties.Name].  A JSON object, a string, a
    number, [null], an empty array, a body that is no JSON and a failed
    request all give "Negligible Risk". *)
Theorem high_risk_needs_named_array (reply : http_reply) :
  risk_label (territory_lookup reply) = "High Risk"
  <-> exists status items,
        reply = Response status (Some (JArr items))
        /\ items <> []
        /\ existsb lacks_name items = false.
Proof.
  rewrite risk_label_high. split.
  - destruct reply as [e|status [body|]]; [intros H; now contradiction H | | intros H; now contradiction H].
    destruct body as [| | |s|items|members]; try (intros H; now contradiction H).
    + intros H. exfalso. apply H. unfold territory_lookup, extract_names.
      cbn [response_json rbind iterate]. rewrite chars_as_map.
      destruct (comprehension_not_objects (fun c => JStr (String c EmptyString))
                  (list_ascii_of_string s)) as [-> | (e & ->)]; [eauto | |]; reflexivity.
    + intros H. exists status, items. split; [reflexivity|].
      rewrite lookup_of_array in H.
      split.
      * intros ->. now apply H.
      * destruct (existsb lacks_name items) eqn:E; [|reflexivity].
        exfalso. apply H. apply existsb_exists in E. destruct E as (r & Hin & Hr).
        apply in_split in Hin. destruct Hin as (before & after & ->).
        apply lacks_name_raises in Hr. destruct Hr as (e & He).
        destruct (comprehension_raises name_of before after r e He) as (e' & ->).
        reflexivity.
    + intros H. exfalso. apply H. unfold territory_lookup, extract_names.
      cbn [response_json rbind iterate]. rewrite <- (map_map fst JStr).
      destruct (comprehension_not_objects JStr (map fst members)) as [-> | (e & ->)];
        [eauto | |]; reflexivity.
  - intros (status & items & -> & Hne & Hnames).
    rewrite lookup_of_array.
    destruct (comprehension_names items Hnames) as (names & Hc). rewrite Hc.
    apply comprehension_length in Hc. destruct names; [|discriminate].
    destruct items; [contradiction | discriminate Hc].
Qed.

(** ** The exported ring and the drawn polygon *)

(** X15: for any list of point dicts, the exported ring is the polygon that
    is drawn, pair by pair, followed by its first pair; the export raises
    whatever drawing the polygon raises, and on no points at all it raises
    [IndexError]. *)
Theorem export_ring_closes_drawn_polygon (all_points : list point) :
  (forall ring,
      poly_ring all_points = Ok ring ->
      all_points <> [] ->
      exists first rest,
        ring = first :: rest
        /\ export_ring all_points = Ok (map json_pair ring ++ [json_pair first]))
  /\ (forall e, poly_ring all_points = Raise e -> export_ring all_points = Raise e)
  /\ export_ring [] = Raise IndexError.
Proof.
  split; [|split; [|reflexivity]].
  - intros ring Hring Hne. destruct all_points as [|p0 r]; [contradiction|].
    unfold export_ring. fold (poly_ring (p0 :: r)). rewrite Hring.
    unfold poly_ring in Hring. cbn [comprehension] in Hring.
    unfold lon_lat at 1 in Hring.
    destruct (getitem p0 "lon") as [lon|] eqn:Elon; cbn [rbind] in Hring; [|discriminate].
    destruct (getitem p0 "lat") as [lat|] eqn:Elat; cbn [rbind] in Hring; [|discriminate].
    destruct (comprehension lon_lat r) as [rest|]; cbn [rbind] in Hring; [|discriminate].
    injection Hring as <-. exists [lon; lat], rest. split; [reflexivity|].
    cbn [rbind first_point]. rewrite Elon, Elat. reflexivity.
  - intros e He. unfold export_ring. fold (poly_ring all_points). now rewrite He.
Qed.

(** ** The report *)

Lemma join_names_not_text (tribes : list json) :
  forallb is_text tribes = false -> join_names tribes = Raise TypeError.
Proof.
  intros H. unfold join_names.
  assert (Hc : comprehension (fun v => match v with
                                       | JStr n => Ok n
                                       | _ => Raise TypeError
                                       end) tribes = Raise TypeError).
  { induction tribes as [|v tribes IH]; [discriminate H|].
    cbn [forallb] in H. cbn [comprehension].
    destruct v; cbn [is_text andb rbind] in *; try reflexivity.
    rewrite (IH H). reflexivity. }
  rewrite Hc. reflexivity.
Qed.

(** X16: when a name returned by the lookup is not a string, the run draws
    the map in the high-risk colour and then stops with [TypeError] at
    [', '.join(tribes)]: neither the table nor the download button is
    produced. *)
Theorem non_text_name_stops_report
    (net : Q -> Q -> http_reply) (w : widgets) (imported manual : list coordinate) :
  (3 <= length (imported ++ manual))%nat ->
  (forall a b, forallb is_text (territory_lookup (net a b)) = false) ->
  exists map_deck,
    main_display net w (state_of imported manual)
    = {| shown := [st_subheader "🗺️ Spatial Risk Visualization";
                   st_pydeck_chart map_deck;
                   st_header "📄 EUDR Detailed Compliance Summary"];
         final := state_of imported manual;
         value := Raise TypeError |}
    /\ fill_color map_deck = [255; 75; 75; 150]%Z.
Proof.
  intros Hn Htext.
  assert (Hguard : (3 <=? length (all_points_of (state_of imported manual)))%nat = true).
  { apply Nat.leb_le. rewrite all_points_of_state, length_map. exact Hn. }
  pose proof (run_compliance_audit_coordinates net (imported ++ manual) ltac:(lia)) as Haudit.
  cbv zeta in Haudit. rewrite <- all_points_of_state in Haudit.
  assert (Hring : poly_ring (all_points_of (state_of imported manual))
                 = Ok (map (fun c => [longitude c; latitude c]) (imported ++ manual))).
  { rewrite all_points_of_state. apply poly_ring_coordinates. }
  match type of Haudit with _ = Ok (_, _, ?t) => set (tribes := t) in * end.
  assert (Ht : forallb is_text tribes = false) by apply Htext.
  assert (Hreport : report_data (all_points_of (state_of imported manual)) tribes
                    = Raise TypeError).
  { unfold report_data, social_reading.
    destruct tribes as [|t ts] eqn:E; [discriminate Ht|].
    cbn [list_truthy]. rewrite (join_names_not_text _ Ht). reflexivity. }
  eexists. split.
  - unfold main_display. rewrite bind_get_state, Hguard.
    rewrite (bind_lift_ok _ _ _ _ Haudit), bind_emit.
    rewrite (bind_lift_ok _ _ _ _ Hring), !bind_emit.
    rewrite (bind_lift_raise _ _ _ _ Hreport). reflexivity.
  - cbn [fill_color make_deck]. unfold poly_color.
    destruct tribes; [discriminate Ht | reflexivity].
Qed.

(** ** A lookup that fails *)

(** X17: when the lookup yields nothing (time-out, unreadable body, ...)
    and there are 3 points or more, the run completes as for a clear plot:
    green fill, "Negligible Risk" in the tooltip and in the table, the
    reading "Indigenous Index: Clear", the number of points as survey
    vertices, and an export whose properties are that label and an empty
    territory list. *)
Theorem failed_lookup_reports_clear
    (net : Q -> Q -> http_reply) (w : widgets) (imported manual : list coordinate) :
  (3 <= length (imported ++ manual))%nat ->
  (forall a b, territory_lookup (net a b) = []) ->
  exists map_deck report export,
    main_display net w (state_of imported manual)
    = {| shown := [st_subheader "🗺️ Spatial Risk Visualization";
                   st_pydeck_chart map_deck;
                   st_header "📄 EUDR Detailed Compliance Summary";
                   st_table report;
                   st_divider;
                   st_download_button "💾 Download Verified GeoJSON & Report" export
                                      "EUDR_Final_Evidence.geojson"];
         final := state_of imported manual;
         value := Ok tt |}
    /\ fill_color map_deck = [34; 139; 34; 150]%Z
    /\ tooltip map_deck
       = ("Risk Level: Negligible Risk"
          ++ String (ascii_of_nat 10) ("Operator: " ++ operator w))%string
    /\ map reading report
       = ["Satellite (Sentinel-2) Overlay";
          "Indigenous Index: Clear";
          (PyStr.of_nat (length (imported ++ manual)) ++ " Survey Vertices")%string;
          "Closed Polygon Loop"]
    /\ map finding report
       = ["Zero forest-to-agriculture conversion detected.";
          "Negligible Risk";
          "WGS84 Compliant";
          "Valid for TRACES"]
    /\ gj (all_points_of (state_of imported manual)) [] = Ok export.
Proof.
  intros Hn Hnone.
  destruct (main_display_renders net w imported manual Hn)
    as (lat_c & lon_c & tribes & ring & report & export
        & Haudit & _ & Hreport & Hgj & Hshow).
  { intros a b. rewrite Hnone. constructor. }
  rewrite all_points_of_state in Haudit.
  rewrite run_compliance_audit_coordinates in Haudit by lia.
  rewrite Hnone in Haudit. injection Haudit as <- <- <-.
  exists (make_deck ring
            (fold_left Qplus (map latitude (imported ++ manual)) 0
             / inject_Z (Z.of_nat (length (imported ++ manual))))%Q
            (fold_left Qplus (map longitude (imported ++ manual)) 0
             / inject_Z (Z.of_nat (length (imported ++ manual))))%Q
            [] (operator w)), report, export.
  split; [exact Hshow|].
  split; [reflexivity|]. split; [reflexivity|].
  unfold report_data in Hreport. cbn [social_reading list_truthy rbind] in Hreport.
  injection Hreport as <-.
  split; [cbn [map reading]; now rewrite all_points_of_state, length_map|].
  split; [reflexivity | exact Hgj].
Qed.

(** ** The commodity *)

(** X18: the commodity selected in the sidebar is never used: a run shows
    the same page, stores the same points and ends the same way whatever
    commodity is selected; in particular neither the report nor the export
    mentions it. *)
Theorem commodity_is_never_used
    (net : Q -> Q -> http_reply) (w : widgets) (c : string) (s : session_state) :
  script net (with_commodity w c) s = script net w s.
Proof.
  assert (Hmain : forall s', main_display net (with_commodity w c) s' = main_display net w s')
    by reflexivity.
  assert (Hup : forall s', upload_block (with_commodity w c) s' = upload_block w s')
    by reflexivity.
  rewrite !script_cases. cbn [reset_clicked with_commodity].
  destruct (reset_clicked w) eqn:Hreset; rewrite !script_once_outcome.
  - reflexivity.
  - cbn [reset_clicked with_commodity]. rewrite Hreset. cbv zeta.
    rewrite Hup. unfold after_add. cbn [add_clicked with_commodity].
    rewrite Hmain. reflexivity.
Qed.

(** ** Witnesses of the further properties *)

Lemma manual_point_is_appended_witness :
  uploaded_file adding = None
  /\ add_clicked adding = true
  /\ reset_clicked adding = false
  /\ all_points_of (final (script net_timeout adding busy_state))
     = all_points_of busy_state ++ [manual_entry adding]
  /\ excel_points (final (script net_timeout adding busy_state)) = excel_points busy_state
  /\ getitem (manual_entry adding) "lat" = Ok (m_lat adding)
  /\ getitem (manual_entry adding) "lon" = Ok (m_lon adding).
Proof.
  do 3 (split; [reflexivity|]).
  apply manual_point_is_appended; reflexivity.
Defined.

Lemma reset_clears_everything_witness :
  uploaded_file (resetting None) = None
  /\ reset_clicked (resetting None) = true
  /\ script net_timeout (resetting None) busy_state
     = {| shown := [st_title "⚖️ EUDR Automated Compliance Dashboard";
                    st_header "📂 Input Sources";
                    st_divider; st_divider;
                    placeholder];
          final := initial_state;
          value := Ok tt |}.
Proof.
  do 2 (split; [reflexivity|]).
  apply reset_clears_everything; reflexivity.
Defined.

Lemma reset_reimports_uploaded_file_witness :
  uploaded_file (resetting (Some (Workbook sheet_scenario))) = Some (Workbook sheet_scenario)
  /\ parse_upload (Workbook sheet_scenario) = Ok (Some (map to_point scenario_points))
  /\ reset_clicked (resetting (Some (Workbook sheet_scenario))) = true
  /\ final (script net_timeout (resetting (Some (Workbook sheet_scenario))) busy_state)
     = {| manual_points := []; excel_points := map to_point scenario_points |}.
Proof.
  do 3 (split; [reflexivity|]).
  apply (reset_reimports_uploaded_file net_timeout _ busy_state (Workbook sheet_scenario));
    reflexivity.
Defined.

Lemma script_raises_only_data_errors_witness :
  value (script net_timeout (uploading (Workbook sheet_shared_column)) initial_state)
  = Raise (KeyError "lat")
  /\ data_error (KeyError "lat")
  /\ KeyError "lat" <> RerunException.
Proof.
  split; [reflexivity|].
  apply (script_raises_only_data_errors net_timeout
           (uploading (Workbook sheet_shared_column)) initial_state).
  reflexivity.
Defined.

Lemma excel_error_only_for_unreadable_files_witness :
  (exists msg, uploaded_file (uploading (Unreadable "File is not a zip file"))
               = Some (Unreadable msg))
  /\ (exists m, In (st_error m)
                   (shown (upload_block (uploading (Unreadable "File is not a zip file"))
                                        busy_state))).
Proof.
  split; [eexists; reflexivity|].
  apply (proj2 (proj1 (excel_error_only_for_unreadable_files
                         (uploading (Unreadable "File is not a zip file")) busy_state))).
  eexists; reflexivity.
Defined.

Lemma imported_points_are_capped_witness :
  (parse_upload (Workbook sheet_scenario) = Ok (Some (map to_point scenario_points))
   /\ (length (map to_point scenario_points) <= 100)%nat
   /\ (length (map to_point scenario_points) <= length (Pandas.rows sheet_scenario))%nat)
  /\ ((length (excel_points busy_state) <= 100)%nat
      /\ (length (excel_points
                    (final (script net_timeout (uploading (Workbook sheet_scenario))
                                   busy_state))) <= 100)%nat).
Proof.
  destruct (imported_points_are_capped net_timeout (uploading (Workbook sheet_scenario))
              busy_state) as (Hfile & Hrun).
  split.
  - split; [reflexivity | apply (Hfile sheet_scenario); reflexivity].
  - split; [cbn; lia | apply Hrun; cbn; lia].
Defined.

Lemma two_column_sheet_is_imported_witness :
  uploaded_file (uploading (Workbook sheet_scenario)) = Some (Workbook sheet_scenario)
  /\ forallb is_ascii (Pandas.columns sheet_scenario) = true
  /\ first_containing "lat" (header_of sheet_scenario) = Some "lat"
  /\ first_containing "lon" (header_of sheet_scenario) = Some "long"
  /\ Pandas.positions "lat" (header_of sheet_scenario) = [0%nat]
  /\ Pandas.positions "long" (header_of sheet_scenario) = [1%nat]
  /\ "lat" <> "long"
  /\ upload_block (uploading (Workbook sheet_scenario)) busy_state
     = {| shown := [st_success "Loaded 5 points."];
          final := {| manual_points := manual_points busy_state;
                      excel_points := map to_point scenario_points |};
          value := Ok tt |}.
Proof.
  do 7 (split; [reflexivity || discriminate|]).
  apply (two_column_sheet_is_imported (uploading (Workbook sheet_scenario)) busy_state
           sheet_scenario "lat" "long" 0 1); reflexivity || discriminate.
Defined.

Lemma shared_name_loses_latitude_witness :
  first_containing "lat" (header_of sheet_shared_column) = Some "latlon"
  /\ first_containing "lon" (header_of sheet_shared_column) = Some "latlon"
  /\ exists records,
       parse_upload (Workbook sheet_shared_column) = Ok (Some records)
       /\ (forall r, In r records -> getitem r "lat" = Raise (KeyError "lat"))
       /\ (forall manual,
             records <> [] ->
             run_compliance_audit net_timeout (records ++ manual) = Raise (KeyError "lat"))
       /\ (forall s,
             excel_points s = records ->
             records <> [] ->
             (3 <= length (all_points_of s))%nat ->
             main_display net_timeout sample_widgets s
             = {| shown := []; final := s; value := Raise (KeyError "lat") |}).
Proof.
  do 2 (split; [reflexivity|]).
  apply (shared_name_loses_latitude net_timeout sample_widgets sheet_shared_column "latlon");
    reflexivity.
Defined.

Lemma lookup_returns_names_in_order_witness :
  Forall2 carries_name
          [territory_feature "Anishinabek" "anishinabek"; territory "Odawa";
           territory_feature "Anishinabek" "anishinabek"]
          [JStr "Anishinabek"; JStr "Odawa"; JStr "Anishinabek"]
  /\ territory_lookup
       (Response 203 (Some (JArr [territory_feature "Anishinabek" "anishinabek";
                                  territory "Odawa";
                                  territory_feature "Anishinabek" "anishinabek"])))
     = [JStr "Anishinabek"; JStr "Odawa"; JStr "Anishinabek"].
Proof.
  assert (H : Forall2 carries_name
                [territory_feature "Anishinabek" "anishinabek"; territory "Odawa";
                 territory_feature "Anishinabek" "anishinabek"]
                [JStr "Anishinabek"; JStr "Odawa"; JStr "Anishinabek"]).
  { repeat constructor; eexists _, _; repeat split; reflexivity. }
  split; [exact H | apply lookup_returns_names_in_order; exact H].
Defined.

Lemma high_risk_needs_named_array_witness :
  (exists status items,
      Response 200 (Some (JArr [territory "Anishinabek"]))
      = Response status (Some (JArr items))
      /\ items <> []
      /\ existsb lacks_name items = false)
  /\ risk_label (territory_lookup (Response 200 (Some (JArr [territory "Anishinabek"]))))
     = "High Risk".
Proof.
  assert (H : exists status items,
             Response 200 (Some (JArr [territory "Anishinabek"]))
             = Response status (Some (JArr items))
             /\ items <> []
             /\ existsb lacks_name items = false).
  { eexists _, _. split; [reflexivity|]. split; [discriminate | reflexivity]. }
  split; [exact H|].
  exact (proj2 (high_risk_needs_named_array _) H).
Defined.

Lemma export_ring_closes_drawn_polygon_witness :
  poly_ring (map to_point sample_manual) = Ok [[5; 3]; [1 # 2; 2]]%Q
  /\ map to_point sample_manual <> []
  /\ exists first rest,
       [[5; 3]; [1 # 2; 2]]%Q = first :: rest
       /\ export_ring (map to_point sample_manual)
          = Ok (map json_pair [[5; 3]; [1 # 2; 2]]%Q ++ [json_pair first]).
Proof.
  split; [reflexivity|]. split; [discriminate|].
  apply (proj1 (export_ring_closes_drawn_polygon (map to_point sample_manual)));
    [reflexivity | discriminate].
Defined.

Lemma non_text_name_stops_report_witness :
  (3 <= length (sample_imported ++ sample_manual))%nat
  /\ (forall a b, forallb is_text (territory_lookup (net_null_name a b)) = false)
  /\ exists map_deck,
       main_display net_null_name sample_widgets (state_of sample_imported sample_manual)
       = {| shown := [st_subheader "🗺️ Spatial Risk Visualization";
                      st_pydeck_chart map_deck;
                      st_header "📄 EUDR Detailed Compliance Summary"];
            final := state_of sample_imported sample_manual;
            value := Raise TypeError |}
       /\ fill_color map_deck = [255; 75; 75; 150]%Z.
Proof.
  split; [cbn; lia|]. split; [intros a b; reflexivity|].
  apply non_text_name_stops_report; [cbn; lia | intros a b; reflexivity].
Defined.

Lemma failed_lookup_reports_clear_witness :
  (3 <= length (sample_imported ++ sample_manual))%nat
  /\ (forall a b, territory_lookup (net_timeout a b) = [])
  /\ exists map_deck report export,
       main_display net_timeout sample_widgets (state_of sample_imported sample_manual)
       = {| shown := [st_subheader "🗺️ Spatial Risk Visualization";
                      st_pydeck_chart map_deck;
                      st_header "📄 EUDR Detailed Compliance Summary";
                      st_table report;
                      st_divider;
                      st_download_button "💾 Download Verified GeoJSON & Report" export
                                         "EUDR_Final_Evidence.geojson"];
            final := state_of sample_imported sample_manual;
            value := Ok tt |}
       /\ fill_color map_deck = [34; 139; 34; 150]%Z
       /\ tooltip map_deck
          = ("Risk Level: Negligible Risk"
             ++ String (ascii_of_nat 10) ("Operator: " ++ operator sample_widgets))%string
       /\ map reading report
          = ["Satellite (Sentinel-2) Overlay";
             "Indigenous Index: Clear";
             (PyStr.of_nat (length (sample_imported ++ sample_manual))
              ++ " Survey Vertices")%string;
             "Closed Polygon Loop"]
       /\ map finding report
          = ["Zero forest-to-agriculture conversion detected.";
             "Negligible Risk";
             "WGS84 Compliant";
             "Valid for TRACES"]
       /\ gj (all_points_of (state_of sample_imported sample_manual)) [] = Ok export.
Proof.
  split; [cbn; lia|]. split; [intros a b; reflexivity|].
  apply failed_lookup_reports_clear; [cbn; lia | intros a b; reflexivity].
Defined.
